(** * pdf2doi: identifier resolution engine

    Shallow embedding of [pdf2doi/patterns.py], [pdf2doi/finders.py]
    (including [add_found_identifier_to_metadata] on a model of the file
    system), [pdf2doi/config.py] (the parameter store and its INI file) and
    [pdf2doi/main.py] ([pdf2doi_singlefile], [save_identifiers] and
    [save_bibtex]).

    Python [str] values are modelled as [list ascii], read as code points
    0..255 (Latin-1); [re] patterns are modelled by a small backtracking
    matcher that follows the [re] module's search order for the constructs
    the patterns of [patterns.py] use (character classes, literals, greedy
    bounded repetition of a class, concatenation, alternation, greedy
    optional, capture groups, [^] and [$]). *)

From Stdlib Require Import Ascii String List Arith Lia Bool.
From Stdlib Require Import Sorting.Permutation Sorting.Sorted FunctionalExtensionality.
Import ListNotations.
Open Scope bool_scope.

(* ------------------------------------------------------------------ *)
(** ** Characters and Python string helpers *)

Definition pystr := list ascii.

(** String literals of the source, as [pystr]. *)
Definition s2l (s : string) : pystr := list_ascii_of_string s.

Definition code (c : ascii) : nat := nat_of_ascii c.

Definition between (lo hi : nat) (c : ascii) : bool :=
  (lo <=? code c) && (code c <=? hi).

Definition one_of (s : string) (c : ascii) : bool :=
  existsb (Ascii.eqb c) (s2l s).

(** [\d] of a [str] pattern (decimal digits). *)
Definition is_digit (c : ascii) : bool := between 48 57 c.

(** [\s] of a [str] pattern, i.e. [str.isspace], on code points 0..255. *)
Definition is_space (c : ascii) : bool :=
  between 9 13 c || between 28 32 c || (code c =? 133) || (code c =? 160).

Definition is_lower_az (c : ascii) : bool := between 97 122 c.
Definition is_upper_az (c : ascii) : bool := between 65 90 c.

(** [str.lower] on code points 0..255. *)
Definition py_lower_char (c : ascii) : ascii :=
  if between 65 90 c || (between 192 222 c && negb (code c =? 215))
  then ascii_of_nat (code c + 32) else c.

Definition py_lower (s : pystr) : pystr := map py_lower_char s.

(** ASCII case folding used by [re.IGNORECASE] for the ASCII classes below. *)
Definition fold_lower (c : ascii) : ascii :=
  if is_upper_az c then ascii_of_nat (code c + 32) else c.
Definition fold_upper (c : ascii) : ascii :=
  if is_lower_az c then ascii_of_nat (code c - 32) else c.

(** [str.strip()]. *)
Fixpoint lstrip (s : pystr) : pystr :=
  match s with
  | c :: s' => if is_space c then lstrip s' else s
  | [] => []
  end.
Definition py_strip (s : pystr) : pystr := rev (lstrip (rev (lstrip s))).

Fixpoint prefixb (p s : pystr) : bool :=
  match p, s with
  | [], _ => true
  | a :: p', b :: s' => Ascii.eqb a b && prefixb p' s'
  | _ :: _, [] => false
  end.

(** [s.find(p) >= 0], i.e. [p in s]. *)
Fixpoint containsb (p s : pystr) : bool :=
  prefixb p s || match s with [] => false | _ :: s' => containsb p s' end.

(* ------------------------------------------------------------------ *)
(** ** Regular expressions (the [re] module, backtracking order) *)

Inductive rx :=
| Chr (p : ascii -> bool)                    (** one character of a class *)
| Lit (w : pystr)                            (** literal text *)
| Rep (p : ascii -> bool) (lo : nat) (hi : option nat)
                                             (** greedy [p{lo,hi}] *)
| Cat (r1 r2 : rx)
| Alt (r1 r2 : rx)                           (** [r1|r2] *)
| Opt (r : rx)                               (** greedy [r?] *)
| Grp (n : nat) (r : rx)                     (** capture group number [n] *)
| Bol                                        (** [^] (no MULTILINE) *)
| Eol (ml : bool).                           (** [$], [ml] = MULTILINE *)

(** Captured groups of a match, most recent first. *)
Definition caps := list (nat * pystr).

Fixpoint cap_get (n : nat) (g : caps) : option pystr :=
  match g with
  | (m, v) :: g' => if m =? n then Some v else cap_get n g'
  | [] => None
  end.

Section Matcher.
Variable ic : bool.   (** [re.IGNORECASE] *)

Definition cm (p : ascii -> bool) (c : ascii) : bool :=
    if ic then p c || p (fold_lower c) || p (fold_upper c) else p c.

Definition chr_eq (a c : ascii) : bool :=
    if ic then Ascii.eqb (fold_lower a) (fold_lower c) else Ascii.eqb a c.

Fixpoint lit_pre (l w : pystr) : option pystr :=
    match l, w with
    | [], _ => Some w
    | a :: l', c :: w' => if chr_eq a c then lit_pre l' w' else None
    | _ :: _, [] => None
    end.

Fixpoint run (p : ascii -> bool) (w : pystr) : nat :=
    match w with
    | c :: w' => if cm p c then S (run p w') else 0
    | [] => 0
    end.

Definition cap_hi (hi : option nat) (n : nat) : nat :=
    match hi with Some h => Nat.min h n | None => n end.

Variable A : Type.

  (** Greedy repetition: counts are tried from [m] down to [lo]. *)
Fixpoint tryd (lo m : nat) (f : nat -> option A) : option A :=
    if m <? lo then None
    else match f m with
         | Some x => Some x
         | None => match m with 0 => None | S m' => tryd lo m' f end
         end.

Definition at_eol (ml : bool) (w : pystr) : bool :=
    match w with
    | [] => true
    | c :: w' => Ascii.eqb c (ascii_of_nat 10) && (ml || match w' with [] => true | _ => false end)
    end.

  (** [mt r i w g k]: match [r] at absolute position [i], where [w] is the
      rest of the subject; [k] is the continuation (the rest of the
      pattern), called with the new position, rest and captures. *)
Fixpoint mt (r : rx) (i : nat) (w : pystr) (g : caps)
           (k : nat -> pystr -> caps -> option A) {struct r} : option A :=
    match r with
    | Chr p => match w with
               | c :: w' => if cm p c then k (S i) w' g else None
               | [] => None
               end
    | Lit l => match lit_pre l w with
               | Some w' => k (i + length l) w' g
               | None => None
               end
    | Rep p lo hi =>
        tryd lo (cap_hi hi (run p w)) (fun m => k (i + m) (skipn m w) g)
    | Cat r1 r2 => mt r1 i w g (fun j w' g' => mt r2 j w' g' k)
    | Alt r1 r2 => match mt r1 i w g k with
                   | Some x => Some x
                   | None => mt r2 i w g k
                   end
    | Opt r1 => match mt r1 i w g k with
                | Some x => Some x
                | None => k i w g
                end
    | Grp n r1 => mt r1 i w g (fun j w' g' => k j w' ((n, firstn (j - i) w) :: g'))
    | Bol => if i =? 0 then k i w g else None
    | Eol ml => if at_eol ml w then k i w g else None
    end.
End Matcher.

Arguments mt ic {A} r i w g k.
Arguments tryd {A} lo m f.

(** A match attempt at one position: end position, rest, captures. *)
Definition match_at (ic : bool) (r : rx) (i : nat) (w : pystr)
  : option (nat * pystr * caps) :=
  mt ic r i w [] (fun j w' g => Some (j, w', g)).

(** [re.finditer]: leftmost matches, left to right, not overlapping.
    (None of the patterns below matches the empty string; after an empty
    match the scan moves on by one character.) *)
Fixpoint scan (ic : bool) (r : rx) (fuel i : nat) (w : pystr) : list caps :=
  match fuel with
  | 0 => []
  | S f =>
      match match_at ic r i w with
      | Some (j, w', g) =>
          g :: (if j =? i then match w with [] => [] | _ :: t => scan ic r f (S i) t end
                else scan ic r f j w')
      | None => match w with [] => [] | _ :: t => scan ic r f (S i) t end
      end
  end.

Definition finditer (ic : bool) (r : rx) (s : pystr) : list caps :=
  scan ic r (S (length s)) 0 s.

(** [re.findall] for a pattern with one group: the texts of group 1. *)
Definition findall (ic : bool) (r : rx) (s : pystr) : list pystr :=
  map (fun g => match cap_get 1 g with Some v => v | None => [] end)
      (finditer ic r s).

(** [re.match]: a match anchored at position 0. *)
Definition re_match (ic : bool) (r : rx) (s : pystr) : bool :=
  match match_at ic r 0 s with Some _ => true | None => false end.

(* ------------------------------------------------------------------ *)
(** ** [patterns.py] *)

Definition cls_doi_marker_sep (c : ascii) : bool := one_of ":/" c || is_space c.
Definition cls_doi_sep (c : ascii) : bool := one_of ":-/]" c || is_space c.
Definition cls_doi_suffix (c : ascii) : bool :=
  one_of "-._;()/:" c || is_lower_az c || is_digit c.
Definition cls_alnum (c : ascii) : bool := is_lower_az c || is_digit c.
Definition dq : ascii := ascii_of_nat 34.   (** the double quote character *)
Definition nl : ascii := ascii_of_nat 10.   (** [\n] *)

Definition cls_doi_trailing (c : ascii) : bool :=
  is_space c || Ascii.eqb c nl || Ascii.eqb c dq || one_of "<." c.

(** The verbose, MULTILINE pattern [DOI]; groups: marker 1, prefix 2,
    namespace 3, registrant 4, sep 5, suffix 6, trailing 7 (and the unnamed
    group 8 inside trailing). *)
Definition doi_marker : rx :=
  Opt (Grp 1 (Cat (Lit (s2l "doi")) (Rep cls_doi_marker_sep 0 (Some 3)))).
Definition doi_prefix : rx :=
  Grp 2 (Cat (Grp 3 (Lit (s2l "10")))
             (Cat (Chr (one_of ".")) (Grp 4 (Rep is_digit 2 (Some 9))))).
Definition doi_sep : rx := Grp 5 (Chr cls_doi_sep).
Definition doi_suffix : rx := Grp 6 (Cat (Rep cls_doi_suffix 1 None) (Chr cls_alnum)).
Definition doi_trailing : rx := Grp 7 (Grp 8 (Alt (Chr cls_doi_trailing) (Eol true))).

Definition DOI : rx :=
  Cat doi_marker (Cat doi_prefix (Cat doi_sep (Cat doi_suffix doi_trailing))).

Definition reg_group : nat := 4.
Definition suffix_group : nat := 6.

(** [standardise_doi]: the groups of the last match win ([dict.update]). *)
Definition standardise_doi (identifier : pystr) : option pystr :=
  match rev (finditer false DOI (py_lower identifier)) with
  | g :: _ =>
      match cap_get reg_group g, cap_get suffix_group g with
      | Some reg, Some suf => Some (s2l "10." ++ reg ++ s2l "/" ++ suf)
      | _, _ => None
      end
  | [] => None
  end.

(** Concatenation of a list of patterns. *)
Fixpoint seqs (l : list rx) : rx :=
  match l with
  | [] => Lit []
  | [r] => r
  | r :: l' => Cat r (seqs l')
  end.

Definition L (s : string) : rx := Lit (s2l s).

(** The group [(?:[\s\n<]|$)] (with the double quote in the class too) that ends a
    candidate in [doi_regexp] and [arxiv_regexp]. *)
Definition cls_end (c : ascii) : bool :=
  is_space c || Ascii.eqb c nl || Ascii.eqb c dq || one_of "<" c.
Definition end_rx : rx := Alt (Chr cls_end) (Eol false).

Definition cls_v0_marker (c : ascii) : bool := is_space c || one_of ".:" c.
Definition cls_v0_body (c : ascii) : bool := is_digit c || one_of ":.-/" c || is_lower_az c.
Definition cls_v2_mid (c : ascii) : bool := one_of ":.-/" c || is_lower_az c.
Definition cls_v2_tail (c : ascii) : bool := one_of ":.-" c || is_digit c.
Definition cls_v2_end (c : ascii) : bool :=
  is_space c || Ascii.eqb c nl || is_lower_az c || Ascii.eqb c dq || one_of "<" c.
Definition cls_printable (c : ascii) : bool := between 32 126 c.
Definition cls_crossref (c : ascii) : bool :=
  one_of "-._;()/:" c || is_lower_az c || is_digit c.

(** [doi_regexp], strict to loose (all used with [re.I]). *)
Definition doi_regexp : list rx := [
  (* 0 *) seqs [L "doi"; Rep cls_v0_marker 0 (Some 2);
                Grp 1 (seqs [L "10."; Rep is_digit 4 (Some 4); Rep cls_v0_body 1 None]);
                end_rx];
  (* 1 *) seqs [Grp 1 (seqs [L "10."; Rep is_digit 4 (Some 4); Rep cls_v0_body 1 None]);
                end_rx];
  (* 2 *) seqs [Grp 1 (seqs [L "10."; Rep is_digit 4 (Some 4); Rep cls_v2_mid 1 None;
                             Rep cls_v2_tail 1 None]);
                Alt (Chr cls_v2_end) (Eol false)];
  (* 3 *) seqs [L "http"; Opt (L "s"); L "://"; Rep cls_printable 0 None; L "doi";
                Rep cls_printable 0 None; L "/";
                Grp 1 (seqs [L "10."; Rep is_digit 4 (Some 9); L "/"; Rep cls_crossref 1 None]);
                end_rx];
  (* 4 *) seqs [Bol;
                Grp 1 (seqs [L "10."; Rep is_digit 4 (Some 9); L "/"; Rep cls_crossref 1 None]);
                Eol false]
].

(** [(?:v\d+)?] *)
Definition version_rx : rx := Opt (Cat (L "v") (Rep is_digit 1 None)).
(** [(\d{4}\.\d+)] *)
Definition arxiv_id_rx : rx := Grp 1 (seqs [Rep is_digit 4 (Some 4); L "."; Rep is_digit 1 None]).

(** [arxiv_regexp] (used with [re.I]). *)
Definition arxiv_regexp : list rx := [
  (* 0 *) seqs [L "arxiv"; Rep is_space 0 None; L ":"; Rep is_space 0 None;
                arxiv_id_rx; version_rx; end_rx];
  (* 1 *) seqs [arxiv_id_rx; version_rx; L ".pdf"];
  (* 2 *) seqs [Bol; arxiv_id_rx; version_rx; Eol false]
].

(** [arxiv2007_pattern] *)
Definition arxiv2007_pattern : rx := seqs [Bol; arxiv_id_rx; version_rx; Eol false].

(* ------------------------------------------------------------------ *)
(** ** [finders.py], low level *)

(** Python values a text argument can hold: a [str], or [None] (what
    [get_pdf_text] returns when PyPDF2 cannot read the file). *)
Inductive pyval := PStr (s : pystr) | PNone.

(** [extract_doi_from_text] / [extract_arxivID_from_text]: [re.findall]
    with [re.I]; a non-string subject makes [re] raise, which is caught. *)
Definition extract_from_text (pat : rx) (text : pyval) : list pystr :=
  match text with
  | PStr t => findall true pat t
  | PNone => []
  end.

Inductive what := WDoi | WArxiv.

(** An arXiv feed entry, as a list of fields. *)
Definition entry := list (pystr * pystr).

(** Values returned by [validate]: [None], [False], [True], the text from
    dx.doi.org, or the entry from export.arxiv.org. *)
Inductive vres := VNone | VFalse | VTrue | VStr (s : pystr) | VEntry (e : entry).

(** Python truthiness. *)
Definition vtruthy (v : vres) : bool :=
  match v with
  | VNone | VFalse => false
  | VTrue => true
  | VStr s | VEntry s => negb (length s =? 0)
  end.

Definition id_truthy (o : option pystr) : bool :=
  match o with Some s => negb (length s =? 0) | None => false end.

(** The triple [(identifier, desc, validation)] returned by the finders. *)
Record found := Found { f_id : option pystr; f_desc : option string; f_info : vres }.
Definition not_found : found := Found None None VNone.

Section FindInText.
Variable func_validate : pystr -> what -> vres.

Fixpoint first_valid (w : what) (identifiers : list pystr) : option (pystr * vres) :=
    match identifiers with
    | [] => None
    | identifier :: rest =>
        let validation := func_validate identifier w in
        if vtruthy validation then Some (identifier, validation)
        else first_valid w rest
    end.

  (** [for v in range(len(regexps)): for identifier in extract(text, v): ...] *)
Fixpoint try_versions (w : what) (regexps : list rx) (text : pyval)
    : option (pystr * vres) :=
    match regexps with
    | [] => None
    | pat :: pats =>
        match first_valid w (extract_from_text pat text) with
        | Some x => Some x
        | None => try_versions w pats text
        end
    end.

  (** [find_identifier_in_text] on the list [texts] (a single text is the
      one-element list). *)
Fixpoint find_identifier_in_text (texts : list pyval) : found :=
    match texts with
    | [] => not_found
    | text :: rest =>
        match try_versions WDoi doi_regexp text with
        | Some (identifier, validation) => Found (Some identifier) (Some "DOI"%string) validation
        | None =>
            match try_versions WArxiv arxiv_regexp text with
            | Some (identifier, validation) =>
                Found (Some identifier) (Some "arxiv ID"%string) validation
            | None => find_identifier_in_text rest
            end
        end
    end.
End FindInText.

(** Configuration ([config.py]) as the finders see it: the values
    [config.get] returns at the time of the call, and the default arguments
    [numb_results] and [numb_characters] of
    [find_identifier_by_googling_first_N_characters_in_pdf], which Python
    evaluated once, with [config.get], when [finders] was imported, and
    which [find_identifier] never overrides. *)
Record config := Config {
  webvalidation : bool;
  websearch : bool;
  numb_results_google_search : nat;
  save_identifier_metadata : bool;
  default_numb_results : nat;
  default_numb_characters : nat
}.

Definition default_config : config := Config true true 6 true 6 1000.

(** An HTTP reply of [requests.get], or an exception raised by it. *)
Inductive response := Resp (status_code : nat) (text : pystr) | ReqError.

(** What [feedparser.parse] returns: the list of entries, or an error. *)
Inductive feed := Feed (entries : list entry) | FeedError.

(** The remote services. [doi_server url n] is the reply to the [n]-th
    request (counted from 0) of one [validate_doi_web] call. *)
Record env := Env {
  doi_server : pystr -> nat -> response;
  arxiv_feed : pystr -> feed;
  google_search : pystr -> nat -> list (option pystr);  (** [None]: the generator raises *)
  http_get : pystr -> response
}.

(** Results of [validate_doi_web] / [validate_arxivID_web]. *)
Inductive webres := WText (t : pystr) | WEntry (e : entry) | WPyNone | WMinus1.

Definition transient (status : nat) (text : pystr) : bool :=
  (500 <=? status) || containsb (s2l "503 service unavailable") (py_lower text)
  || match text with [] => true | _ => false end.

(** The [while NumberAttempts:] loop; [sent] counts the requests made.
    When the loop condition fails the function falls off its end. *)
Fixpoint doi_attempts (server : nat -> response) (NumberAttempts sent : nat) : webres * nat :=
  match NumberAttempts with
  | 0 => (WPyNone, sent)
  | S n =>
      match server sent with
      | ReqError => (WMinus1, S sent)
      | Resp status text =>
          if transient status text then doi_attempts server n (S sent)
          else if containsb (s2l "doi not found") (py_lower text) then (WPyNone, S sent)
          else (WText text, S sent)
      end
  end.

(** [validate_doi_web(doi)]: the result and the number of requests sent. *)
Definition validate_doi_web (e : env) (doi : pystr) : webres * nat :=
  doi_attempts (doi_server e (s2l "http://dx.doi.org/" ++ doi)) 10 0.

Definition validate_arxivID_web (e : env) (arxivID : pystr) : webres :=
  match arxiv_feed e (s2l "http://export.arxiv.org/api/query?search_query=id:" ++ arxivID) with
  | FeedError => WMinus1
  | Feed [] => WMinus1                     (* [result.entries[0]] raises [IndexError] *)
  | Feed (items :: _) => if 0 <? length items then WEntry items else WPyNone
  end.

(** [validate(identifier, what)]. *)
Definition validate (cfg : config) (e : env) (identifier : pystr) (w : what) : vres :=
  match identifier with
  | [] => VNone
  | _ =>
    match w with
    | WDoi =>
        match standardise_doi identifier with
        | Some doi_id =>
            if webvalidation cfg then
              match fst (validate_doi_web e doi_id) with
              | WMinus1 => VNone
              | WText t =>
                  if list_eq_dec ascii_dec (firstn 5 (py_strip t)) (s2l "@misc") then VFalse
                  else if vtruthy (VStr t) then VStr t else VFalse
              | _ => VFalse
              end
            else VTrue
        | None => VFalse
        end
    | WArxiv =>
        if re_match true arxiv2007_pattern identifier then
          if webvalidation cfg then
            match validate_arxivID_web e identifier with
            | WMinus1 => VNone
            | WEntry it => if vtruthy (VEntry it) then VEntry it else VFalse
            | _ => VFalse
            end
          else VTrue
        else VFalse
    end
  end.

(* ------------------------------------------------------------------ *)
(** ** Documents, files and exceptions *)

(** What [pdftitle.get_title_from_io] gives: a string, another value, or
    an exception. *)
Inductive title_res := TStr (s : pystr) | TOther | TError.

(** The PDF document as the collaborators see it: the document information
    dictionary returned by [get_pdf_info] ([None] when PyPDF2 fails; the
    association list keeps the dictionary's order), the page texts PyPDF2
    extracts ([None] when the reader fails), the text textract extracts
    ([None] when both calls fail) and the title found by pdftitle. *)
Record pdf_doc := Doc {
  doc_info : option (list (pystr * pystr));
  doc_pages : option (list pystr);
  doc_textract : option pystr;
  doc_title : title_res
}.

(** The [file] argument of the finders: a path string or an open file
    object (whose [name] attribute is the path it was opened with). *)
Inductive pyfile := FPath (p : pystr) | FObj (name : pystr).

(** Exceptions. *)
Inductive res (A : Type) := Ok (a : A) | Raise (exn : string).
Arguments Ok {A} a.
Arguments Raise {A} exn.

Definition rbind {A B} (m : res A) (k : A -> res B) : res B :=
  match m with Ok a => k a | Raise x => Raise x end.
Notation "x <- m ;; k" := (rbind m (fun x => k)) (at level 61, m at next level, right associativity).

(** [file.name]: a [str] has no attribute [name]. *)
Definition py_name (f : pyfile) : res pystr :=
  match f with
  | FObj n => Ok n
  | FPath _ => Raise "AttributeError"
  end.

(** [str.split(sep)] for a one-character separator. *)
Fixpoint split_on (sep : ascii) (s : pystr) : list pystr :=
  match s with
  | [] => [[]]
  | c :: s' =>
      if Ascii.eqb c sep then [] :: split_on sep s'
      else match split_on sep s' with
           | x :: xs => (c :: x) :: xs
           | [] => [[c]]
           end
  end.

(** [os.path.basename]: what follows the last ['/']. *)
Definition basename (p : pystr) : pystr := last (split_on "/"%char p) [].

(** [itertools.accumulate(l, f)] *)
Fixpoint acc_from {A} (f : A -> A -> A) (x : A) (l : list A) : list A :=
  x :: match l with [] => [] | y :: l' => acc_from f (f x y) l' end.
Definition accumulate {A} (l : list A) (f : A -> A -> A) : list A :=
  match l with [] => [] | x :: l' => acc_from f x l' end.

(** [lambda x,y: '.'.join([x, y])] *)
Definition join_dot (x y : pystr) : pystr := x ++ "."%char :: y.

(** [len(s.split())] *)
Fixpoint count_words (inword : bool) (s : pystr) : nat :=
  match s with
  | [] => 0
  | c :: s' => if is_space c then count_words false s'
               else if inword then count_words true s' else S (count_words true s')
  end.

(** [titles.sort(key=len, reverse=True)]: a stable sort by decreasing length. *)
Fixpoint ins_len (x : pystr) (l : list pystr) : list pystr :=
  match l with
  | [] => [x]
  | y :: l' => if length y <? length x then x :: l else y :: ins_len x l'
  end.
Definition sort_len_desc (l : list pystr) : list pystr :=
  fold_left (fun acc x => ins_len x acc) l [].

Fixpoint assoc (k : pystr) (l : list (pystr * pystr)) : option pystr :=
  match l with
  | [] => None
  | (k', v) :: l' => if list_eq_dec ascii_dec k k' then Some v else assoc k l'
  end.

Definition del_key (k : pystr) (l : list (pystr * pystr)) : list (pystr * pystr) :=
  filter (fun kv => if list_eq_dec ascii_dec k (fst kv) then false else true) l.

Definition mem_str (x : pystr) (l : list pystr) : bool :=
  existsb (fun y => if list_eq_dec ascii_dec x y then true else false) l.

(* ------------------------------------------------------------------ *)
(** ** [finders.py], high level *)

Inductive reader := PyPdf | Textract.
Definition reader_libraries : list reader := [PyPdf; Textract].

(** [get_pdf_text(file, reader)]: [None] or a list of strings. *)
Definition get_pdf_text (d : pdf_doc) (f : pyfile) (r : reader) : res (option (list pystr)) :=
  match r with
  | PyPdf => Ok (doc_pages d)
  | Textract =>
      _ <- py_name f ;;     (* [path = file.name] *)
      Ok (Some (match doc_textract d with Some t => [t] | None => [] end))
  end.

Definition KeysNotToUse : list pystr := [s2l "/wps-journaldoi"].

Section Finders.
Variable cfg : config.
Variable e : env.
Variable func_validate : pystr -> what -> vres.

Definition fit (texts : list pyval) : found := find_identifier_in_text func_validate texts.

  (** The loop of [find_identifier_in_pdf_info]; it also returns the keys
      whose values were searched, in order. *)
Fixpoint info_loop (Keys : list pystr) (pdfinfo : list (pystr * pystr))
    : found * list pystr :=
    match Keys with
    | [] => (not_found, [])
    | key :: Keys' =>
        match assoc key pdfinfo with
        | Some value =>
            if negb (mem_str (py_lower key) KeysNotToUse) then
              let r := fit [PStr value] in
              if id_truthy (f_id r) then (r, [key])
              else let (r', checked) := info_loop Keys' (del_key key pdfinfo) in
                   (r', key :: checked)
            else info_loop Keys' pdfinfo
        | None => info_loop Keys' pdfinfo
        end
    end.

Definition pdf_info_search (d : pdf_doc) (keysToCheckFirst : list pystr)
    : found * list pystr :=
    match doc_info d with
    | Some pdfinfo => info_loop (keysToCheckFirst ++ map fst pdfinfo) pdfinfo
    | None => (not_found, [])
    end.

Definition find_identifier_in_pdf_info (d : pdf_doc) (keysToCheckFirst : list pystr)
    : res found :=
    let r := fst (pdf_info_search d keysToCheckFirst) in
    Ok (if id_truthy (f_id r) then r else not_found).

  (** The texts the filename strategy searches: the name, then
      [reversed(accumulate(text.split('.'), join))]. *)
Definition filename_texts (text : pystr) : list pystr :=
    text :: rev (accumulate (split_on "."%char text) join_dot).

Definition find_identifier_in_filename (f : pyfile) : res found :=
    name <- py_name f ;;
    let r := fit (map PStr (filename_texts (basename name))) in
    Ok (if id_truthy (f_id r) then r else not_found).

Fixpoint pdf_text_loop (d : pdf_doc) (f : pyfile) (readers : list reader) : res found :=
    match readers with
    | [] => Ok not_found
    | rd :: readers' =>
        texts <- get_pdf_text d f rd ;;
        let texts := match texts with None => [PNone] | Some l => map PStr l end in
        match texts with
        | [] => pdf_text_loop d f readers'
        | _ => let r := fit texts in
               if id_truthy (f_id r) then Ok r else pdf_text_loop d f readers'
        end
    end.

Definition find_identifier_in_pdf_text (d : pdf_doc) (f : pyfile) : res found :=
    pdf_text_loop d f reader_libraries.

Definition find_possible_titles (d : pdf_doc) (f : pyfile) : res (option (list pystr)) :=
    match doc_title d with
    | TOther => Ok None
    | tr =>
        let title := match tr with TStr s => s | _ => [] end in
        let titles := if 12 <? length (py_strip title) then [title] else [] in
        match doc_info d with
        | None | Some [] => Ok None
        | Some info =>
            let titles := titles ++
              map snd (filter (fun kv => containsb (s2l "title") (py_lower (fst kv))
                                         && (12 <? length (py_strip (snd kv)))
                                         && (3 <? count_words false (snd kv))) info) in
            name <- py_name f ;;
            let t := basename name in
            Ok (Some (titles ++ if 30 <? length (py_strip t) then [t] else []))
        end
    end.

Fixpoint search_loop (urls : list (option pystr)) : found :=
    match urls with
    | [] => not_found
    | None :: _ => not_found                (* exception caught *)
    | Some url :: rest =>
        let r := fit [PStr url] in
        if id_truthy (f_id r) then r
        else match http_get e url with
             | ReqError => not_found        (* exception caught *)
             | Resp _ text =>
                 let r := fit [PStr text] in
                 if id_truthy (f_id r) then r else search_loop rest
             end
    end.

Definition find_identifier_in_google_search (query : pystr) (numb_results : nat) : found :=
    search_loop (google_search e query numb_results).

Fixpoint titles_loop (titles : list pystr) : found :=
    match titles with
    | [] => not_found
    | title :: rest =>
        let r := find_identifier_in_google_search title (numb_results_google_search cfg) in
        if id_truthy (f_id r) then r else titles_loop rest
    end.

Definition find_identifier_by_googling_title (d : pdf_doc) (f : pyfile) : res found :=
    titles <- find_possible_titles d f ;;
    match titles with
    | Some (_ :: _ as ts) =>
        if negb (websearch cfg) then Ok not_found
        else Ok (titles_loop (sort_len_desc ts))
    | _ => Ok not_found
    end.

Definition clean_char (c : ascii) : ascii :=
    if 127 <? code c then " "%char
    else if one_of (String nl (String (ascii_of_nat 13) (String (ascii_of_nat 9) EmptyString))) c
    then " "%char else c.

Fixpoint first_N_loop (d : pdf_doc) (f : pyfile) (numb_results numb_characters : nat)
    (readers : list reader) : res found :=
    match readers with
    | [] => Ok not_found
    | rd :: readers' =>
        text <- get_pdf_text d f rd ;;
        match text with
        | None | Some [] => first_N_loop d f numb_results numb_characters readers'
        | Some pages =>
            let t := map clean_char (concat pages) in
            match t with
            | [] => first_N_loop d f numb_results numb_characters readers'
            | _ =>
                let r := find_identifier_in_google_search (firstn numb_characters t) numb_results in
                if id_truthy (f_id r) then Ok r
                else first_N_loop d f numb_results numb_characters readers'
            end
        end
    end.

Definition find_identifier_by_googling_first_N_characters_in_pdf (d : pdf_doc) (f : pyfile)
    (numb_results numb_characters : nat) : res found :=
    if negb (websearch cfg) then Ok not_found
    else first_N_loop d f numb_results numb_characters reader_libraries.
End Finders.

(** The state of a resolution: the document, whose metadata the
    write-back would change. *)
Definition M (A : Type) := pdf_doc -> res (A * pdf_doc).
Definition mret {A} (a : A) : M A := fun d => Ok (a, d).
Definition mbind {A B} (m : M A) (k : A -> M B) : M B :=
  fun d => match m d with Ok (a, d') => k a d' | Raise x => Raise x end.
Notation "x <-- m ;; k" := (mbind m (fun x => k)) (at level 61, m at next level, right associativity).

Inductive method := document_infos | document_text | filename | title_google
                  | first_N_characters_google.

(** The dictionary returned by [find_identifier]. *)
Record resolution := Resolution {
  identifier : option pystr;
  identifier_type : option string;
  path : pystr;
  rmethod : method;
  validation_info : vres
}.

Definition keysToCheckFirst_main : list pystr := [s2l "/doi"; s2l "/identfier"].

(** [finder_methods[method](file, func_validate, **kwargs)] *)
Definition run_finder (cfg : config) (e : env) (f : pyfile) (m : method) (d : pdf_doc)
  : res found :=
  let fv := validate cfg e in
  match m with
  | document_infos => find_identifier_in_pdf_info fv d keysToCheckFirst_main
  | document_text => find_identifier_in_pdf_text fv d f
  | filename => find_identifier_in_filename fv f
  | title_google => find_identifier_by_googling_title cfg e fv d f
  | first_N_characters_google =>
      find_identifier_by_googling_first_N_characters_in_pdf cfg e fv d f
        (default_numb_results cfg) (default_numb_characters cfg)
  end.

(** [find_identifier(file, method)] with [func_validate = validate]. *)
Definition find_identifier (cfg : config) (e : env) (f : pyfile) (m : method) : M resolution :=
  fun d =>
    r <- run_finder cfg e f m d ;;
    name <- py_name f ;;
    Ok (Resolution (f_id r) (f_desc r) name m (f_info r), d).

(** [pdf2doi_singlefile(filename)]; besides the result it returns the
    methods that were run, in order. Before method #5, the log message
    reads [config.N_characters_in_pdf]. In [main.py], [config] is bound by
    [import pdf2doi.config as config], i.e. to the attribute [config] of
    the package, which [pdf2doi/__init__.py] has rebound to the class
    [config.config] ([from .config import config]); the class has no
    attribute [N_characters_in_pdf], so the f-string raises
    [AttributeError] and method #5 never runs. *)
Definition pdf2doi_singlefile (cfg : config) (e : env) (f : pyfile)
  : M (resolution * list method) :=
  r1 <-- find_identifier cfg e f document_infos ;;
  if id_truthy (identifier r1) then mret (r1, [document_infos]) else
  r2 <-- find_identifier cfg e f filename ;;
  if id_truthy (identifier r2) then mret (r2, [document_infos; filename]) else
  r3 <-- find_identifier cfg e f document_text ;;
  if id_truthy (identifier r3) then mret (r3, [document_infos; filename; document_text]) else
  r4 <-- find_identifier cfg e f title_google ;;
  if id_truthy (identifier r4)
  then mret (r4, [document_infos; filename; document_text; title_google]) else
  fun _ => Raise "AttributeError".

(** [add_found_identifier_to_metadata(target, identifier)] on one file:
    the metadata is copied and the key ['/identifier'] is set. (It is
    called only from [main()] for the [-id] option.) *)
Definition add_found_identifier_to_metadata (identifier : pystr) : M unit :=
  fun d =>
    let info := match doc_info d with Some i => i | None => [] end in
    let info' := if assoc (s2l "/identifier") info
                 then map (fun kv => if list_eq_dec ascii_dec (fst kv) (s2l "/identifier")
                                     then (fst kv, identifier) else kv) info
                 else info ++ [(s2l "/identifier", identifier)] in
    Ok (tt, Doc (Some info') (doc_pages d) (doc_textract d) (doc_title d)).

(* ------------------------------------------------------------------ *)
(** ** [main.py]: [save_identifiers] and [save_bibtex] *)

(** ['{:<N}'.format(s)] on a [str]: [s] padded on the right with spaces to
    [N] characters (a longer [s] is kept whole). *)
Definition fmt_left (n : nat) (s : pystr) : pystr := s ++ repeat " "%char (n - length s).

(** ['{:<15s} {:<40s} {:<10s}\n'.format(type, identifier, path)];
    formatting [None] with the ['s'] format raises [TypeError]. *)
Definition identifier_line (r : resolution) : option pystr :=
  match identifier_type r, identifier r with
  | Some t, Some i =>
      Some (fmt_left 15 (s2l t) ++ " "%char :: fmt_left 40 i ++ " "%char :: fmt_left 10 (path r) ++ [nl])
  | _, _ => None
  end.

(** The text [save_identifiers] writes to its file: one line per result
    whose [validation_info] is truthy; [None] when building it raises. *)
Fixpoint identifiers_file_text (results : list resolution) : option pystr :=
  match results with
  | [] => Some []
  | r :: rs =>
      if vtruthy (validation_info r) then
        match identifier_line r, identifiers_file_text rs with
        | Some l, Some t => Some (l ++ t)
        | _, _ => None
        end
      else identifiers_file_text rs
  end.

(** The text [save_identifiers] copies to the clipboard:
    [text + result['identifier'] + '\n'] ([str + None] raises [TypeError]). *)
Fixpoint identifiers_clipboard_text (results : list resolution) : option pystr :=
  match results with
  | [] => Some []
  | r :: rs =>
      if vtruthy (validation_info r) then
        match identifier r, identifiers_clipboard_text rs with
        | Some i, Some t => Some (i ++ nl :: t)
        | _, _ => None
        end
      else identifiers_clipboard_text rs
  end.

(** What the savers do to the outside world. *)
Inductive effect := WriteFile (name text : pystr) | CopyClipboard (text : pystr).

Definition effect_text (x : effect) : pystr :=
  match x with WriteFile _ t => t | CopyClipboard t => t end.

(** The outside world of the savers: which files [open(name, "w")] can
    write, and whether [pyperclip.copy] works.  A failure raises inside a
    [try] and is only logged. *)
Record io := IO { can_write : pystr -> bool; clipboard_ok : bool }.

(** [save_identifiers(filename_identifiers, results, clipboard)]; a falsy
    [filename_identifiers] ([''] or [False]) is the empty string. *)
Definition save_identifiers (w : io) (filename_identifiers : pystr)
    (results : list resolution) (clipboard : bool) : list effect :=
  (match filename_identifiers with
   | [] => []
   | _ => match identifiers_file_text results with
          | Some text =>
              if can_write w filename_identifiers then [WriteFile filename_identifiers text] else []
          | None => []
          end
   end) ++
  (if clipboard then
     match identifiers_clipboard_text results with
     | Some text => if clipboard_ok w then [CopyClipboard text] else []
     | None => []
     end
   else []).

(** The text of [save_bibtex]: each [validation_info] that is a [str] (the
    text returned by dx.doi.org), followed by two newlines. *)
Fixpoint bibtex_text (results : list resolution) : pystr :=
  match results with
  | [] => []
  | r :: rs =>
      match validation_info r with
      | VStr s => s ++ [nl; nl] ++ bibtex_text rs
      | _ => bibtex_text rs
      end
  end.

(** [save_bibtex(filename_bibtex, results, clipboard)]. *)
Definition save_bibtex (w : io) (filename_bibtex : pystr) (results : list resolution)
    (clipboard : bool) : list effect :=
  let text := bibtex_text results in
  (match filename_bibtex with
   | [] => []
   | _ => if can_write w filename_bibtex then [WriteFile filename_bibtex text] else []
   end) ++
  (if clipboard then if clipboard_ok w then [CopyClipboard text] else [] else []).

(* ------------------------------------------------------------------ *)
(** ** [config.py] *)

(** Parameter values: a [bool], an [int] or a [str]. *)
Inductive cval := CBool (b : bool) | CInt (n : nat) | CStr (s : pystr).

(** [config.__params]: a dict, in insertion order. *)
Definition params := list (pystr * cval).

(** The class's initial [__params]; [sep] is [os.path.sep]. *)
Definition default_params (sep : pystr) : params := [
  (s2l "verbose", CBool true);
  (s2l "separator", CStr sep);
  (s2l "method_dxdoiorg", CStr (s2l "application/citeproc+json"));
  (s2l "webvalidation", CBool true);
  (s2l "websearch", CBool true);
  (s2l "numb_results_google_search", CInt 6);
  (s2l "N_characters_in_pdf", CInt 1000);
  (s2l "save_identifier_metadata", CBool true)].

Fixpoint plookup (k : pystr) (ps : params) : option cval :=
  match ps with
  | [] => None
  | (k', v) :: ps' => if list_eq_dec ascii_dec k k' then Some v else plookup k ps'
  end.

(** [d[k] = v] for a key of [d]: the value is replaced in place. *)
Definition pset (k : pystr) (v : cval) (ps : params) : params :=
  map (fun kv => if list_eq_dec ascii_dec (fst kv) k then (k, v) else kv) ps.



(** [config.get(name)]: [KeyError] for a name that is not a parameter. *)
Definition config_get (ps : params) (name : pystr) : res cval :=
  match plookup name ps with Some v => Ok v | None => Raise "KeyError" end.

(** Python truthiness of a parameter value. *)
Definition ctruthy (v : cval) : bool :=
  match v with CBool b => b | CInt n => negb (n =? 0) | CStr s => negb (length s =? 0) end.

(** Levels of the ["pdf2doi"] logger. *)
Definition INFO : nat := 20.
Definition CRITICAL : nat := 50.

(** The class state: the parameters and the level of the logger. *)
Record settings := Settings { sparams : params; loglevel : nat }.

(** [config.set(name, value)].  [__setters] is [__params.keys()], a live
    view, so every name that is a parameter at the time of the call is
    accepted. *)
Definition config_set (st : settings) (name : pystr) (value : cval) : res settings :=
  match plookup name (sparams st) with
  | Some _ =>
      Ok (Settings (pset name value (sparams st))
                   (if list_eq_dec ascii_dec name (s2l "verbose")
                    then if ctruthy value then INFO else CRITICAL
                    else loglevel st))
  | None => Raise "NameError"
  end.










(* ------------------------------------------------------------------ *)
(** ** [add_found_identifier_to_metadata] on the file system *)

(** The file system as the function sees it: [os.path.isdir],
    [os.listdir], and for each path the document ([None] when
    [open(f, 'rb')] fails), whether PyPDF2 can read it, and whether writing
    the new revision succeeds (a failing write appends nothing). *)
Record fsys := FS {
  fs_isdir : pystr -> bool;
  fs_listdir : pystr -> list pystr;
  fs_doc : pystr -> option pdf_doc;
  fs_pypdf_ok : pystr -> bool;
  fs_write_ok : pystr -> bool
}.

(** [d.update({k: v})] on a document information dictionary. *)
Definition info_set (info : list (pystr * pystr)) (kv : pystr * pystr) : list (pystr * pystr) :=
  match assoc (fst kv) info with
  | Some _ => map (fun kv' => if list_eq_dec ascii_dec (fst kv') (fst kv) then kv else kv') info
  | None => info ++ [kv]
  end.

Definition info_update (info new : list (pystr * pystr)) : list (pystr * pystr) :=
  fold_left info_set new info.

(** The information dictionary of the revision PyPDF2's writer appends: its
    own [/Producer] entry, updated with the old information
    ([writer.add_metadata(metadata)], which raises, caught, when the file
    has none) and then with ['/identifier']. *)
Definition written_info (old : option (list (pystr * pystr))) (identifier : pystr)
  : list (pystr * pystr) :=
  info_set (info_update [(s2l "/Producer", s2l "PyPDF2")] (match old with Some i => i | None => [] end))
           (s2l "/identifier", identifier).

Definition fs_update (fs : fsys) (f : pystr) (d : pdf_doc) : fsys :=
  FS (fs_isdir fs) (fs_listdir fs)
     (fun p => if list_eq_dec ascii_dec p f then Some d else fs_doc fs p)
     (fs_pypdf_ok fs) (fs_write_ok fs).

(** The body of the loop for one file [f]: [Some msg] when it returns
    [(False, msg)]. *)
Definition write_one (identifier f : pystr) (fs : fsys) : option pystr * fsys :=
  match fs_doc fs f with
  | None => (Some (s2l "File not found."), fs)
  | Some d =>
      if negb (fs_pypdf_ok fs f) then
        (Some (s2l "It was not possible to open the file with PyPDF2. Is this a valid pdf file?"), fs)
      else if negb (fs_write_ok fs f) then
        (Some (s2l "An error occured while trying to write the identifier '" ++ identifier ++
               s2l "' into the metadata of the file '" ++ f ++
               s2l "'. Maybe the file is open elsewhere?"), fs)
      else (None, fs_update fs f (Doc (Some (written_info (doc_info d) identifier))
                                      (doc_pages d) (doc_textract d) (doc_title d)))
  end.

(** What the function returns: [None] or [(False, msg)]. *)
Inductive add_ret := ARNone | ARFalse (msg : pystr).

Fixpoint write_all (identifier : pystr) (files : list pystr) (fs : fsys) : add_ret * fsys :=
  match files with
  | [] => (ARNone, fs)
  | f :: files' =>
      match write_one identifier f fs with
      | (Some msg, fs1) => (ARFalse msg, fs1)
      | (None, fs1) => write_all identifier files' fs1
      end
  end.

(** [s.endswith(suf)] *)
Definition endswithb (suf s : pystr) : bool := prefixb (rev suf) (rev s).

(** The [.pdf] files of a folder listing, as the function selects them. *)
Definition pdf_files_of (names : list pystr) : list pystr :=
  filter (fun f => endswithb (s2l ".pdf") (py_lower f)) names.

(** [add_found_identifier_to_metadata(target, identifier)] on the file
    system; [sep] is [config.get('separator')]. *)
Definition add_identifier_to_files (sep target identifier : pystr) (fs : fsys) : add_ret * fsys :=
  if fs_isdir fs target then
    match pdf_files_of (fs_listdir fs target) with
    | [] => (ARNone, fs)
    | pdf_files =>
        let target := if endswithb sep target then target else target ++ sep in
        write_all identifier (map (fun f => target ++ f) pdf_files) fs
    end
  else write_all identifier [target] fs.

(* ================================================================== *)
(** * Definitions used in the analysis *)

(** The groups a pattern captures. *)
Fixpoint groups (r : rx) : list nat :=
  match r with
  | Cat r1 r2 | Alt r1 r2 => groups r1 ++ groups r2
  | Opt r1 => groups r1
  | Grp n r1 => n :: groups r1
  | _ => []
  end.

Definition registrant_shape (reg : pystr) : Prop :=
  2 <= length reg <= 9 /\ Forall (fun c => is_digit c = true) reg.

Definition suffix_shape (suf : pystr) : Prop :=
  exists suf0 c, suf = suf0 ++ [c] /\ 1 <= length suf0 /\
                 Forall (fun c => cls_doi_suffix c = true) suf0 /\ cls_alnum c = true.

(** A canonical DOI [10.<registrant>/<suffix>]. *)
Definition canon (reg suf : pystr) : pystr := s2l "10." ++ reg ++ s2l "/" ++ suf.

(** The candidates the versions [regs] extract from [text], in the
    order [find_identifier_in_text] validates them. *)
Definition candidates (regs : list rx) (text : pyval) : list pystr :=
  concat (map (fun pat => extract_from_text pat text) regs).

(** The strategy order of the spec. *)
Definition strategy_order : list method :=
  [document_infos; filename; document_text; title_google; first_N_characters_google].

(** The strategies [pdf2doi_singlefile] runs before it fails. *)
Definition strategies_before_content_search : list method :=
  [document_infos; filename; document_text; title_google].

(** The spec's pipeline: run the strategies in order and stop at the first
    that yields an identifier (the last result is returned otherwise);
    besides the result it returns the strategies run. *)
Fixpoint run_in_order (run : method -> M resolution) (ms : list method)
  : M (resolution * list method) :=
  match ms with
  | [] => fun _ => Raise "no strategy"
  | [m] => r <-- run m ;; mret (r, [m])
  | m :: ms' =>
      r <-- run m ;;
      if id_truthy (identifier r) then mret (r, [m])
      else (p <-- run_in_order run ms' ;; mret (fst p, m :: snd p))
  end.

(** The name variants of the spec's filename strategy, read on the
    reversed name: for each dot, from the last one to the first, the part
    of the name before it. *)
Fixpoint dots (r : pystr) : list pystr :=
  match r with
  | [] => []
  | c :: r' => if Ascii.eqb c "."%char then rev r' :: dots r' else dots r'
  end.

(** The name followed by its progressively stripped variants. *)
Definition stripped_variants (name : pystr) : list pystr := name :: dots (rev name).

Definition dotfree (s : pystr) : Prop := forall ch, In ch s -> Ascii.eqb ch "."%char = false.

(** A finder's result: nothing, or an identifier. *)
Definition found_ok (r : found) : Prop := r = not_found \/ id_truthy (f_id r) = true.

(** The kind [find_identifier_in_text] reports for each pattern family. *)
Definition kind_desc (w : what) : string :=
  match w with WDoi => "DOI"%string | WArxiv => "arxiv ID"%string end.

(** A finder's result as [find_identifier_in_text] builds it: nothing, or a
    candidate with its kind and its truthy validation. *)
Definition found_by (fv : pystr -> what -> vres) (r : found) : Prop :=
  r = not_found \/
  exists c w, r = Found (Some c) (Some (kind_desc w)) (fv c w) /\ vtruthy (fv c w) = true.

(** A result returned by [pdf2doi_singlefile]. *)
Definition pipeline_result (cfg : config) (e : env) (r : resolution) : Prop :=
  exists f d tr d', pdf2doi_singlefile cfg e f d = Ok ((r, tr), d').

(** The identifiers of a list of results, in order. *)
Definition found_ids (results : list resolution) : list pystr :=
  flat_map (fun r => match identifier r with Some i => [i] | None => [] end) results.

(** A query the content search can send: at most [N] characters, none of
    them non-ASCII, a newline, a carriage return or a tab. *)
Definition clean_query (N : nat) (q : pystr) : Prop :=
  length q <= N /\
  Forall (fun c => code c <= 127 /\ c <> nl /\ c <> ascii_of_nat 13 /\ c <> ascii_of_nat 9) q.

(** A Google result after which [find_identifier_in_google_search] stops:
    the generator raised, or the page cannot be fetched. *)
Definition search_stop (e : env) (x : option pystr) : Prop :=
  x = None \/ exists u, x = Some u /\ http_get e u = ReqError.

Definition digits (s : pystr) : Prop := Forall (fun c => is_digit c = true) s.

(** The strings [arxiv2007_pattern] accepts: [dddd.d+], an optional
    version [(v|V)d+], and possibly one final newline. *)
Definition arxiv_shape (s : pystr) : Prop :=
  exists yymm num ver tl,
    s = yymm ++ "."%char :: num ++ ver ++ tl /\
    length yymm = 4 /\ digits yymm /\ num <> [] /\ digits num /\
    (ver = [] \/ exists c n, ver = c :: n /\ (c = "v"%char \/ c = "V"%char) /\ n <> [] /\ digits n) /\
    (tl = [] \/ tl = [nl]).

(** The relation a list sorted by decreasing length keeps between neighbours. *)
Definition longer_eq (x y : pystr) : Prop := length y <= length x.


(** The files [add_found_identifier_to_metadata] writes to, in order. *)
Definition target_files (sep target : pystr) (fs : fsys) : list pystr :=
  if fs_isdir fs target then
    map (fun f => (if endswithb sep target then target else target ++ sep) ++ f)
        (pdf_files_of (fs_listdir fs target))
  else [target].

(** The document a successful write leaves at a path holding [d0]. *)
Definition doc_written (identifier : pystr) (d0 : pdf_doc) : pdf_doc :=
  Doc (Some (written_info (doc_info d0) identifier)) (doc_pages d0) (doc_textract d0) (doc_title d0).


(** Test inputs. *)
Definition env0 : env :=
  Env (fun _ _ => Resp 503 []) (fun _ => Feed []) (fun _ _ => []) (fun _ => ReqError).
(** Services that confirm every DOI and every arXiv ID. *)
Definition env_ok : env :=
  Env (fun _ _ => Resp 200 (s2l "@article{x}")) (fun _ => Feed [[(s2l "id", s2l "x")]])
      (fun _ _ => []) (fun _ => ReqError).
Definition cfg_nwv : config := Config false true 6 true 6 1000.
Definition doc_empty : pdf_doc := Doc None (Some []) None TError.
Definition doc_foo : pdf_doc := Doc None (Some [s2l "foo"]) (Some (s2l "foo")) TError.
Definition doc_epr : pdf_doc :=
  Doc None (Some [s2l "DOI: 10.1103/PhysRev.47.777 Can Quantum Mechanical..."]) None TError.
Definition doc_two_keys : pdf_doc :=
  Doc (Some [(s2l "/doi", s2l "10.1038/nphys1170");
             (s2l "/identifier", s2l "10.1103/physrev.47.777")]) None None TError.
Definition doc_title_first : pdf_doc :=
  Doc (Some [(s2l "/Title", s2l "A paper");
             (s2l "/identifier", s2l "10.1103/physrev.47.777")]) None None TError.
(** A DOI server that answers 503 twice, then 200. *)
Definition env_retry : env :=
  Env (fun _ n => if n <? 2 then Resp 503 [] else Resp 200 (s2l "@article{x}"))
      (fun _ => Feed []) (fun _ _ => []) (fun _ => ReqError).
(** A search engine that finds pages only for queries longer than 1000 characters. *)
Definition env_long : env :=
  Env (fun _ _ => Resp 503 []) (fun _ => Feed [])
      (fun q _ => if 1000 <? length q then [Some (s2l "https://arxiv.org/abs/2407.03393")] else [])
      (fun _ => ReqError).
(** A folder [/papers] with two PDF files and a text file. *)
Definition fs_papers : fsys :=
  FS (fun p => if list_eq_dec ascii_dec p (s2l "/papers") then true else false)
     (fun _ => [s2l "a.pdf"; s2l "notes.txt"; s2l "b.PDF"])
     (fun _ => Some doc_title_first) (fun _ => true) (fun _ => true).
(** The same folder, where [/papers/b.PDF] cannot be written. *)
Definition fs_papers_locked : fsys :=
  FS (fs_isdir fs_papers) (fs_listdir fs_papers) (fs_doc fs_papers) (fs_pypdf_ok fs_papers)
     (fun p => if list_eq_dec ascii_dec p (s2l "/papers/b.PDF") then false else true).

(* ================================================================== *)
(** * Lemmas about the matcher *)

Section MatcherFacts.
Variable ic : bool.
Variable A : Type.

Lemma tryd_sound (lo m : nat) (f : nat -> option A) (x : A) :
    tryd lo m f = Some x -> exists n, lo <= n <= m /\ f n = Some x.
  Proof.
    induction m as [|m IH]; simpl; intros H.
    - destruct (0 <? lo) eqn:Hlo; [discriminate|].
      apply Nat.ltb_ge in Hlo.
      destruct (f 0) eqn:Hf; inversion H; subst; exists 0; split; [lia|assumption].
    - destruct (S m <? lo) eqn:Hlo; [discriminate|].
      apply Nat.ltb_ge in Hlo.
      destruct (f (S m)) eqn:Hf.
      + inversion H; subst. exists (S m). split; [lia|assumption].
      + destruct (IH H) as (n & Hn & Hfn). exists n. split; [lia|assumption].
  Qed.

Lemma tryd_hit (lo m : nat) (f : nat -> option A) (x : A) :
    lo <= m -> f m = Some x -> tryd lo m f = Some x.
  Proof.
    intros Hle Hf. destruct m; simpl;
      (replace (_ <? lo) with false by (symmetry; apply Nat.ltb_ge; lia));
      rewrite Hf; reflexivity.
  Qed.

Lemma tryd_miss (lo m : nat) (f : nat -> option A) :
    lo <= S m -> f (S m) = None -> tryd lo (S m) f = tryd lo m f.
  Proof.
    intros Hle Hf. simpl.
    replace (S m <? lo) with false by (symmetry; apply Nat.ltb_ge; lia).
    rewrite Hf. reflexivity.
  Qed.

Lemma run_le (p : ascii -> bool) (w : pystr) : run ic p w <= length w.
  Proof. induction w as [|c w IH]; simpl; [lia|]. destruct (cm ic p c); simpl; lia. Qed.

Lemma run_firstn (p : ascii -> bool) (w : pystr) (m : nat) :
    m <= run ic p w -> Forall (fun c => cm ic p c = true) (firstn m w).
  Proof.
    revert m; induction w as [|c w IH]; intros m Hm; simpl in *.
    - destruct m; constructor.
    - destruct m; simpl; [constructor|].
      destruct (cm ic p c) eqn:Hc; [|lia].
      constructor; [assumption|]. apply IH. lia.
  Qed.

Lemma run_app (p : ascii -> bool) (u w : pystr) :
    Forall (fun c => cm ic p c = true) u -> run ic p (u ++ w) = length u + run ic p w.
  Proof.
    induction 1 as [|c u Hc Hu IH]; simpl; [reflexivity|]. rewrite Hc, IH. reflexivity.
  Qed.

  (** A successful match ends in a successful call of the continuation,
      and leaves the groups the pattern does not own as they were. *)
Lemma mt_sound (r : rx) :
    forall i w g (k : nat -> pystr -> caps -> option A) x,
      mt ic r i w g k = Some x ->
      exists j w' g', k j w' g' = Some x /\
                      (forall n, ~ In n (groups r) -> cap_get n g' = cap_get n g).
  Proof.
    induction r as [p|l|p lo hi|r1 IH1 r2 IH2|r1 IH1 r2 IH2|r1 IH1|n r1 IH1| |ml];
      intros i w g k x H; simpl in H.
    - destruct w as [|c w']; [discriminate|].
      destruct (cm ic p c); [|discriminate]. eauto.
    - destruct (lit_pre ic l w); [|discriminate]. eauto.
    - apply tryd_sound in H as (m & _ & Hm). eauto.
    - apply IH1 in H as (j1 & w1 & g1 & H1 & P1).
      apply IH2 in H1 as (j & w' & g' & H & P2).
      exists j, w', g'. split; [assumption|].
      intros n Hn. simpl in Hn. rewrite P2, P1; [reflexivity| |];
        intro; apply Hn; apply in_or_app; auto.
    - destruct (mt ic r1 i w g k) eqn:E1.
      + inversion H; subst. apply IH1 in E1 as (j & w' & g' & Hk & P).
        exists j, w', g'. split; [assumption|].
        intros n Hn. apply P. intro; apply Hn; simpl; apply in_or_app; auto.
      + apply IH2 in H as (j & w' & g' & Hk & P).
        exists j, w', g'. split; [assumption|].
        intros n Hn. apply P. intro; apply Hn; simpl; apply in_or_app; auto.
    - destruct (mt ic r1 i w g k) eqn:E1.
      + inversion H; subst. apply IH1 in E1 as (j & w' & g' & Hk & P). eauto.
      + eauto.
    - apply IH1 in H as (j & w' & g' & Hk & P).
      exists j, w', ((n, firstn (j - i) w) :: g'). split; [assumption|].
      intros m Hm. simpl. destruct (n =? m) eqn:E.
      + apply Nat.eqb_eq in E. subst. exfalso. apply Hm. left. reflexivity.
      + apply P. intro; apply Hm; right; assumption.
    - destruct (i =? 0); [|discriminate]. eauto.
    - destruct (at_eol ml w); [|discriminate]. eauto.
  Qed.

  (** A capture group around a repeated class. *)
Lemma mt_grp_rep (n : nat) (p : ascii -> bool) lo hi i w g k (x : A) :
    mt ic (Grp n (Rep p lo hi)) i w g k = Some x ->
    exists m, lo <= m <= cap_hi hi (run ic p w) /\
              k (i + m) (skipn m w) ((n, firstn m w) :: g) = Some x.
  Proof.
    intros H. cbn [mt] in H. apply tryd_sound in H as (m & Hm & H).
    exists m. split; [assumption|]. replace (i + m - i) with m in H by lia. exact H.
  Qed.

Lemma firstn_S_skipn (m : nat) (w w' : pystr) (c : ascii) :
    skipn m w = c :: w' -> firstn (S m) w = firstn m w ++ [c].
  Proof.
    revert w; induction m as [|m IH]; intros [|d w] H; simpl in *; try discriminate.
    - inversion H; reflexivity.
    - f_equal. apply IH. exact H.
  Qed.

  (** A capture group around a repeated class followed by one character. *)
Lemma mt_grp_rep_chr (n : nat) (p q : ascii -> bool) lo hi i w g k (x : A) :
    mt ic (Grp n (Cat (Rep p lo hi) (Chr q))) i w g k = Some x ->
    exists m c w', lo <= m <= cap_hi hi (run ic p w) /\ skipn m w = c :: w' /\
                   cm ic q c = true /\
                   k (S (i + m)) w' ((n, firstn m w ++ [c]) :: g) = Some x.
  Proof.
    intros H. cbn [mt] in H. apply tryd_sound in H as (m & Hm & H).
    destruct (skipn m w) as [|c w'] eqn:Hs; [discriminate|].
    destruct (cm ic q c) eqn:Hq; [|discriminate].
    exists m, c, w'. repeat split; try assumption; try lia.
    replace (S (i + m) - i) with (S m) in H by lia.
    replace (firstn (S m) w) with (firstn m w ++ [c]) in H; [exact H|].
    symmetry. apply (firstn_S_skipn m w w' c Hs).
  Qed.
End MatcherFacts.

Lemma scan_sound (ic : bool) (r : rx) :
  forall fuel i w g, In g (scan ic r fuel i w) ->
  exists i' w' j w'', match_at ic r i' w' = Some (j, w'', g).
Proof.
  induction fuel as [|f IH]; intros i w g Hin; simpl in Hin; [contradiction|].
  destruct (match_at ic r i w) as [[[j w'] g']|] eqn:E.
  - destruct Hin as [<-|Hin]; [eauto|].
    destruct (j =? i); [destruct w as [|c t]; [contradiction|]|]; eauto.
  - destruct w as [|c t]; [contradiction|]. eauto.
Qed.

Lemma mt_cat_eq {A} ic r1 r2 i w g (k : nat -> pystr -> caps -> option A) :
  mt ic (Cat r1 r2) i w g k = mt ic r1 i w g (fun j w' g' => mt ic r2 j w' g' k).
Proof. reflexivity. Qed.

Lemma mt_grp_eq {A} ic n r i w g (k : nat -> pystr -> caps -> option A) :
  mt ic (Grp n r) i w g k = mt ic r i w g (fun j w' g' => k j w' ((n, firstn (j - i) w) :: g')).
Proof. reflexivity. Qed.

Lemma cm_false (p : ascii -> bool) (c : ascii) : cm false p c = p c.
Proof. reflexivity. Qed.

(** ** Shape of a [DOI] match *)

Lemma forall_cm_false (p : ascii -> bool) (u : pystr) :
  Forall (fun c => cm false p c = true) u -> Forall (fun c => p c = true) u.
Proof. intros H. induction H; constructor; auto. Qed.

Lemma doi_prefix_sound {A} i w g (k : nat -> pystr -> caps -> option A) x :
  mt false doi_prefix i w g k = Some x ->
  exists j w' g' reg, k j w' g' = Some x /\ cap_get 4 g' = Some reg /\
    registrant_shape reg /\
    (forall n, ~ In n [2; 3; 4] -> cap_get n g' = cap_get n g).
Proof.
  unfold doi_prefix. intros H.
  rewrite mt_grp_eq, mt_cat_eq in H.
  apply mt_sound in H as (j1 & w1 & g1 & H & P1). cbv beta in H.
  rewrite mt_cat_eq in H.
  apply mt_sound in H as (j2 & w2 & g2 & H & P2). cbv beta in H.
  apply mt_grp_rep in H as (m & Hm & H). cbv beta in H.
  eexists _, _, _, (firstn m w2). split; [exact H|]. split; [reflexivity|]. split.
  - unfold cap_hi in Hm. pose proof (run_le false is_digit w2).
    pose proof (Nat.le_min_l 9 (run false is_digit w2)).
    pose proof (Nat.le_min_r 9 (run false is_digit w2)). split.
    + rewrite length_firstn. lia.
    + apply forall_cm_false. apply run_firstn. lia.
  - intros n Hn. cbn [cap_get].
    destruct (2 =? n) eqn:E2; [apply Nat.eqb_eq in E2; subst; simpl in Hn; tauto|].
    destruct (4 =? n) eqn:E4; [apply Nat.eqb_eq in E4; subst; simpl in Hn; tauto|].
    rewrite P2 by (simpl; tauto). apply P1. simpl in *. tauto.
Qed.

Lemma doi_suffix_sound {A} i w g (k : nat -> pystr -> caps -> option A) x :
  mt false doi_suffix i w g k = Some x ->
  exists j w' g' suf, k j w' g' = Some x /\ cap_get 6 g' = Some suf /\
    suffix_shape suf /\ (forall n, n <> 6 -> cap_get n g' = cap_get n g).
Proof.
  unfold doi_suffix. intros H.
  apply mt_grp_rep_chr in H as (m & c & w' & Hm & Hs & Hc & H).
  eexists _, _, _, (firstn m w ++ [c]). split; [exact H|]. split; [reflexivity|]. split.
  - simpl in Hm. pose proof (run_le false cls_doi_suffix w).
    exists (firstn m w), c. repeat split.
    + rewrite length_firstn. lia.
    + apply forall_cm_false. apply run_firstn. lia.
    + exact Hc.
  - intros n Hn. cbn [cap_get]. replace (6 =? n) with false; [reflexivity|].
    symmetry. apply Nat.eqb_neq. auto.
Qed.

Lemma DOI_match_shape i w j w' g :
  match_at false DOI i w = Some (j, w', g) ->
  exists reg suf, cap_get 4 g = Some reg /\ cap_get 6 g = Some suf /\
                  registrant_shape reg /\ suffix_shape suf.
Proof.
  unfold match_at, DOI. intros H.
  rewrite mt_cat_eq in H.
  apply mt_sound in H as (j1 & w1 & g1 & H & _). cbv beta in H.
  rewrite mt_cat_eq in H.
  apply doi_prefix_sound in H as (j2 & w2 & g2 & reg & H & R & Sreg & _).
  rewrite mt_cat_eq in H.
  apply mt_sound in H as (j3 & w3 & g3 & H & P3). cbv beta in H.
  rewrite mt_cat_eq in H.
  apply doi_suffix_sound in H as (j4 & w4 & g4 & suf & H & Su & Ssuf & P4).
  apply mt_sound in H as (j5 & w5 & g5 & H & P5).
  inversion H; subst.
  exists reg, suf. split; [|split; [|split; assumption]].
  - rewrite P5 by (simpl; intuition discriminate).
    rewrite P4 by discriminate.
    rewrite P3 by (simpl; intuition discriminate). exact R.
  - rewrite P5 by (simpl; intuition discriminate). exact Su.
Qed.

(** ** The [DOI] pattern on a canonical DOI *)

Section MatchSteps.
Variable ic : bool.
Variable A : Type.
  Implicit Types (k : nat -> pystr -> caps -> option A) (x : A).

Lemma mt_opt_miss r i w g k x :
    mt ic r i w g k = None -> k i w g = Some x -> mt ic (Opt r) i w g k = Some x.
  Proof. intros H1 H2. simpl. rewrite H1. exact H2. Qed.

Lemma mt_lit_hit l i w w' g k x :
    lit_pre ic l w = Some w' -> k (i + length l) w' g = Some x ->
    mt ic (Lit l) i w g k = Some x.
  Proof. intros H1 H2. simpl. rewrite H1. exact H2. Qed.

Lemma mt_chr_hit p i c w g k x :
    cm ic p c = true -> k (S i) w g = Some x -> mt ic (Chr p) i (c :: w) g k = Some x.
  Proof. intros H1 H2. simpl. rewrite H1. exact H2. Qed.

Lemma mt_grp_rep_max n p lo hi i w g k x m :
    lo <= m -> cap_hi hi (run ic p w) = m ->
    k (i + m) (skipn m w) ((n, firstn m w) :: g) = Some x ->
    mt ic (Grp n (Rep p lo hi)) i w g k = Some x.
  Proof.
    intros Hlo Hm H. cbn [mt]. rewrite Hm. apply tryd_hit; [exact Hlo|].
    replace (i + m - i) with m by lia. exact H.
  Qed.

  (** The greedy class run eats the final character, so the match backs
      off by one to let the final [Chr q] match it. *)
Lemma mt_grp_rep_chr_backoff n p q lo i w g k x m c :
    lo <= m -> run ic p w = S m -> skipn (S m) w = [] -> skipn m w = [c] ->
    cm ic q c = true ->
    k (S (i + m)) [] ((n, firstn m w ++ [c]) :: g) = Some x ->
    mt ic (Grp n (Cat (Rep p lo None) (Chr q))) i w g k = Some x.
  Proof.
    intros Hlo Hr Hs1 Hs0 Hq H. cbn [mt cap_hi]. rewrite Hr.
    rewrite tryd_miss by (try lia; rewrite Hs1; reflexivity).
    apply tryd_hit; [exact Hlo|]. rewrite Hs0, Hq.
    replace (S (i + m) - i) with (S m) by lia.
    rewrite (firstn_S_skipn m w [] c Hs0). exact H.
  Qed.
End MatchSteps.

Lemma firstn_len_app {T} (u v : list T) : firstn (length u) (u ++ v) = u.
Proof. induction u as [|a u IH]; simpl; [reflexivity|]. rewrite IH. reflexivity. Qed.

Lemma skipn_len_app {T} (u v : list T) : skipn (length u) (u ++ v) = v.
Proof. induction u as [|a u IH]; simpl; [reflexivity|]. exact IH. Qed.

Lemma forall_cm_false_inv (p : ascii -> bool) (u : pystr) :
  Forall (fun c => p c = true) u -> Forall (fun c => cm false p c = true) u.
Proof. intros H. induction H; constructor; auto. Qed.

Lemma alnum_suffix (c : ascii) : cls_alnum c = true -> cls_doi_suffix c = true.
Proof.
  unfold cls_alnum, cls_doi_suffix. intros H.
  apply orb_true_iff in H as [H|H]; rewrite H; rewrite ?orb_true_r; reflexivity.
Qed.

Lemma DOI_match_canon reg suf :
  registrant_shape reg -> suffix_shape suf ->
  exists j g, match_at false DOI 0 (canon reg suf) = Some (j, [], g) /\ j <> 0 /\
              cap_get 4 g = Some reg /\ cap_get 6 g = Some suf.
Proof.
  intros [Hrl Hrd] (suf0 & c & -> & Hl0 & Hs0 & Hc).
  eexists _, _. split.
  { unfold match_at, DOI, canon. rewrite mt_cat_eq. unfold doi_marker.
    apply mt_opt_miss; [reflexivity|]. cbv beta.
    rewrite mt_cat_eq. unfold doi_prefix. rewrite mt_grp_eq, mt_cat_eq, mt_grp_eq.
    eapply mt_lit_hit; [reflexivity|]. cbv beta. rewrite mt_cat_eq.
    apply mt_chr_hit; [reflexivity|]. cbv beta.
    apply (mt_grp_rep_max false _ 4 is_digit 2 (Some 9) _ _ _ _ _ (length reg)); [lia| |].
    { rewrite run_app by (apply forall_cm_false_inv; exact Hrd).
      unfold cap_hi. replace (run false is_digit _) with 0 by reflexivity.
      rewrite Nat.add_0_r. apply Nat.min_r. lia. }
    rewrite firstn_len_app, skipn_len_app. cbv beta.
    rewrite mt_cat_eq. unfold doi_sep. rewrite mt_grp_eq.
    apply mt_chr_hit; [reflexivity|]. cbv beta.
    rewrite mt_cat_eq. unfold doi_suffix.
    apply (mt_grp_rep_chr_backoff false _ 6 cls_doi_suffix cls_alnum 1 _ _ _ _ _ (length suf0) c);
      [lia | | | | exact Hc | ].
    - rewrite run_app by (apply forall_cm_false_inv; exact Hs0).
      simpl. rewrite (alnum_suffix c Hc). lia.
    - replace (S (length suf0)) with (length (suf0 ++ [c])) by (rewrite length_app; simpl; lia).
      rewrite skipn_all. reflexivity.
    - apply skipn_len_app.
    - rewrite firstn_len_app. reflexivity. }
  split; [lia|]. split; reflexivity.
Qed.

Lemma match_at_DOI_nil (j : nat) : match_at false DOI j [] = None.
Proof. reflexivity. Qed.

Lemma finditer_canon reg suf :
  registrant_shape reg -> suffix_shape suf ->
  exists g, finditer false DOI (canon reg suf) = [g] /\
            cap_get 4 g = Some reg /\ cap_get 6 g = Some suf.
Proof.
  intros Hr Hs. destruct (DOI_match_canon reg suf Hr Hs) as (j & g & Hm & Hj & H4 & H6).
  exists g. split; [|split; assumption].
  unfold finditer. cbn [scan]. rewrite Hm.
  rewrite (proj2 (Nat.eqb_neq j 0) Hj).
  (* the fuel left is positive, and there is no match at the end *)
  reflexivity.
Qed.

Lemma py_lower_char_digit (c : ascii) : is_digit c = true -> py_lower_char c = c.
Proof.
  destruct c as [[] [] [] [] [] [] [] []]; vm_compute; intros; first [reflexivity | discriminate].
Qed.

Lemma py_lower_char_suffix (c : ascii) : cls_doi_suffix c = true -> py_lower_char c = c.
Proof.
  destruct c as [[] [] [] [] [] [] [] []]; vm_compute; intros; first [reflexivity | discriminate].
Qed.

Lemma py_lower_fixed (p : ascii -> bool) (u : pystr) :
  (forall c, p c = true -> py_lower_char c = c) ->
  Forall (fun c => p c = true) u -> map py_lower_char u = u.
Proof.
  intros Hp H. induction H as [|c u Hc Hu IH]; [reflexivity|].
  simpl. rewrite (Hp c Hc). f_equal. exact IH.
Qed.

Lemma py_lower_canon reg suf :
  registrant_shape reg -> suffix_shape suf -> py_lower (canon reg suf) = canon reg suf.
Proof.
  intros [_ Hrd] (suf0 & c & -> & _ & Hs0 & Hc).
  unfold canon, py_lower. rewrite !map_app.
  rewrite (py_lower_fixed _ reg py_lower_char_digit Hrd).
  rewrite (py_lower_fixed _ suf0 py_lower_char_suffix Hs0).
  simpl. rewrite (py_lower_char_suffix c (alnum_suffix c Hc)). reflexivity.
Qed.

Lemma in_rev_head {T} (l : list T) (x : T) (t : list T) : rev l = x :: t -> In x l.
Proof. intros H. apply in_rev. rewrite H. left. reflexivity. Qed.

(** What [standardise_doi] returns is a canonical DOI. *)
Lemma standardise_doi_canon (identifier y : pystr) :
  standardise_doi identifier = Some y ->
  exists reg suf, y = canon reg suf /\ registrant_shape reg /\ suffix_shape suf.
Proof.
  unfold standardise_doi. destruct (rev (finditer false DOI (py_lower identifier))) as [|g t] eqn:E;
    [discriminate|].
  apply in_rev_head in E. unfold finditer in E.
  apply scan_sound in E as (i' & w' & j & w'' & Hm).
  apply DOI_match_shape in Hm as (reg & suf & H4 & H6 & Hr & Hs).
  unfold reg_group, suffix_group. rewrite H4, H6. intros H. inversion H; subst.
  exists reg, suf. split; [reflexivity|]. split; assumption.
Qed.

(* ================================================================== *)
(** * The candidate search *)

Section SearchFacts.
Variable fv : pystr -> what -> vres.

Lemma first_valid_app (w : what) (l1 l2 : list pystr) :
    first_valid fv w (l1 ++ l2) =
    match first_valid fv w l1 with Some x => Some x | None => first_valid fv w l2 end.
  Proof.
    induction l1 as [|c l1 IH]; simpl; [reflexivity|].
    destruct (vtruthy (fv c w)); [reflexivity|]. exact IH.
  Qed.

  (** Trying the versions one after another is validating their
      candidates in turn. *)
Lemma try_versions_candidates (w : what) (regs : list rx) (text : pyval) :
    try_versions fv w regs text = first_valid fv w (candidates regs text).
  Proof.
    unfold candidates. induction regs as [|pat regs IH]; simpl; [reflexivity|].
    rewrite first_valid_app, IH. reflexivity.
  Qed.

Lemma first_valid_sound (w : what) (l : list pystr) c v :
    first_valid fv w l = Some (c, v) -> In c l /\ v = fv c w /\ vtruthy v = true.
  Proof.
    induction l as [|c' l IH]; simpl; [discriminate|].
    destruct (vtruthy (fv c' w)) eqn:E.
    - intros H. inversion H; subst. auto.
    - intros H. destruct (IH H) as (? & ? & ?). auto.
  Qed.

Lemma first_valid_complete (w : what) (l : list pystr) c :
    In c l -> vtruthy (fv c w) = true -> exists c' v, first_valid fv w l = Some (c', v).
  Proof.
    induction l as [|c' l IH]; simpl; [contradiction|]. intros [<-|Hin] Hv.
    - rewrite Hv. eauto.
    - destruct (vtruthy (fv c' w)); eauto.
  Qed.

Lemma fit_cons (text : pyval) (rest : list pyval) :
    find_identifier_in_text fv (text :: rest) =
    match first_valid fv WDoi (candidates doi_regexp text) with
    | Some (c, v) => Found (Some c) (Some "DOI"%string) v
    | None =>
        match first_valid fv WArxiv (candidates arxiv_regexp text) with
        | Some (c, v) => Found (Some c) (Some "arxiv ID"%string) v
        | None => find_identifier_in_text fv rest
        end
    end.
  Proof. cbn [find_identifier_in_text]. rewrite !try_versions_candidates. reflexivity. Qed.

Lemma fit_app (pre rest : list pyval) :
    (forall t, In t pre -> f_id (find_identifier_in_text fv [t]) = None) ->
    find_identifier_in_text fv (pre ++ rest) = find_identifier_in_text fv rest.
  Proof.
    induction pre as [|t pre IH]; intros H; [reflexivity|].
    simpl app. rewrite fit_cons.
    assert (Ht := H t (or_introl eq_refl)). rewrite fit_cons in Ht.
    destruct (first_valid fv WDoi (candidates doi_regexp t)) as [[c v]|]; [discriminate|].
    destruct (first_valid fv WArxiv (candidates arxiv_regexp t)) as [[c v]|]; [discriminate|].
    apply IH. intros t' Hin. apply H. right. exact Hin.
  Qed.
End SearchFacts.

(* ================================================================== *)
(** * Name variants of the filename strategy *)

Lemma split_on_nonnil (c : ascii) (s : pystr) : split_on c s <> [].
Proof.
  induction s as [|a s IH]; simpl; [discriminate|].
  destruct (Ascii.eqb a c); [discriminate|]. destruct (split_on c s); discriminate.
Qed.

Lemma split_on_app (c : ascii) (x y : pystr) :
  split_on c (x ++ c :: y) = split_on c x ++ split_on c y.
Proof.
  induction x as [|a x IH]; simpl.
  - rewrite Ascii.eqb_refl. reflexivity.
  - rewrite IH. destruct (Ascii.eqb a c); [reflexivity|].
    destruct (split_on c x) as [|z zs] eqn:E; [exfalso; exact (split_on_nonnil c x E)|].
    reflexivity.
Qed.

Lemma split_on_dotfree (y : pystr) : dotfree y -> split_on "."%char y = [y].
Proof.
  induction y as [|a y IH]; intros H; simpl; [reflexivity|].
  rewrite (H a (or_introl eq_refl)).
  rewrite IH by (intros ch Hin; apply H; right; exact Hin). reflexivity.
Qed.

Lemma acc_from_nonnil_last {A} (f : A -> A -> A) (a : A) (l : list A) (d : A) :
  last (acc_from f a l) d = fold_left f l a.
Proof.
  revert a; induction l as [|b l IH]; intros a; [reflexivity|].
  simpl acc_from. simpl fold_left. rewrite <- (IH (f a b)).
  destruct l; reflexivity.
Qed.

Lemma acc_from_snoc {A} (f : A -> A -> A) (a : A) (l : list A) (y : A) :
  acc_from f a (l ++ [y]) = acc_from f a l ++ [f (fold_left f l a) y].
Proof.
  revert a; induction l as [|b l IH]; intros a; [reflexivity|].
  simpl. rewrite IH. reflexivity.
Qed.

Lemma fold_join_dot_prefix (zs : list pystr) (p z : pystr) :
  fold_left join_dot zs (p ++ z) = p ++ fold_left join_dot zs z.
Proof.
  revert z; induction zs as [|w zs IH]; intros z; [reflexivity|].
  cbn [fold_left]. replace (join_dot (p ++ z) w) with (p ++ join_dot z w)
    by (unfold join_dot; rewrite <- app_assoc; reflexivity).
  apply IH.
Qed.

(** Joining the components back with dots gives the name. *)
Lemma fold_join_split (x : pystr) :
  forall z zs, split_on "."%char x = z :: zs -> fold_left join_dot zs z = x.
Proof.
  induction x as [|a x IH]; intros z zs H; simpl in H.
  - inversion H; subst. reflexivity.
  - destruct (Ascii.eqb a ".") eqn:Ea.
    + apply Ascii.eqb_eq in Ea. subst a. inversion H; subst.
      destruct (split_on "."%char x) as [|z' zs'] eqn:E; [exfalso; exact (split_on_nonnil _ x E)|].
      cbn [fold_left]. change (join_dot [] z') with ([ "."%char ] ++ z').
      rewrite fold_join_dot_prefix. rewrite (IH z' zs' eq_refl). reflexivity.
    + destruct (split_on "."%char x) as [|z' zs'] eqn:E; [exfalso; exact (split_on_nonnil _ x E)|].
      inversion H; subst. change (a :: z') with ([a] ++ z').
      rewrite fold_join_dot_prefix. rewrite (IH _ _ eq_refl). reflexivity.
Qed.

Lemma dots_dotfree_app (u r : pystr) : dotfree u -> dots (u ++ r) = dots r.
Proof.
  induction u as [|a u IH]; intros H; [reflexivity|].
  simpl. rewrite (H a (or_introl eq_refl)). apply IH.
  intros ch Hin; apply H; right; exact Hin.
Qed.

Lemma dotfree_rev (u : pystr) : dotfree u -> dotfree (rev u).
Proof. intros H ch Hin. apply H. apply in_rev. exact Hin. Qed.

Lemma last_dot_split (s : pystr) :
  dotfree s \/ exists x y, s = x ++ "."%char :: y /\ dotfree y.
Proof.
  induction s as [|a s IH].
  - left. intros ch [].
  - destruct IH as [H|(x & y & -> & Hy)].
    + destruct (Ascii.eqb a ".") eqn:Ea.
      * right. apply Ascii.eqb_eq in Ea. subst a. exists [], s. split; [reflexivity|exact H].
      * left. intros ch [<-|Hin]; [exact Ea|]. apply H. exact Hin.
    + right. exists (a :: x), y. split; [reflexivity|exact Hy].
Qed.

Lemma accumulate_split_rev (n : nat) :
  forall s, length s <= n ->
  rev (accumulate (split_on "."%char s) join_dot) = s :: dots (rev s).
Proof.
  induction n as [|n IH]; intros s Hlen.
  - destruct s; [reflexivity|simpl in Hlen; lia].
  - destruct (last_dot_split s) as [H|(x & y & -> & Hy)].
    + rewrite split_on_dotfree by exact H. simpl.
      rewrite <- (app_nil_r (rev s)), dots_dotfree_app by (apply dotfree_rev; exact H).
      reflexivity.
    + rewrite split_on_app, (split_on_dotfree y Hy).
      destruct (split_on "."%char x) as [|z zs] eqn:E; [exfalso; exact (split_on_nonnil _ x E)|].
      simpl app. unfold accumulate. rewrite acc_from_snoc, rev_app_distr.
      rewrite (fold_join_split x z zs E).
      assert (Hx : length x <= n) by (rewrite length_app in Hlen; simpl in Hlen; lia).
      specialize (IH x Hx). rewrite E in IH. unfold accumulate in IH. simpl rev at 1.
      rewrite IH.
      rewrite rev_app_distr. simpl rev at 2. rewrite <- app_assoc.
      rewrite dots_dotfree_app by (apply dotfree_rev; exact Hy).
      change (["."%char] ++ rev x) with ("."%char :: rev x). cbn [dots].
      rewrite Ascii.eqb_refl, rev_involutive. reflexivity.
Qed.

Lemma filename_texts_variants (name : pystr) :
  filename_texts name = name :: stripped_variants name.
Proof.
  unfold filename_texts, stripped_variants. f_equal.
  apply (accumulate_split_rev (length name)). lia.
Qed.

(* ================================================================== *)
(** * The pipeline *)

Lemma fit_guard_ok (r : found) : found_ok (if id_truthy (f_id r) then r else not_found).
Proof. destruct (id_truthy (f_id r)) eqn:E; [right; exact E|left; reflexivity]. Qed.

Section FinderFacts.
Variable cfg : config.
Variable e : env.
Variable fv : pystr -> what -> vres.

Lemma pdf_text_loop_ok d f readers r :
    pdf_text_loop fv d f readers = Ok r -> found_ok r.
  Proof.
    induction readers as [|rd readers IH]; cbn [pdf_text_loop].
    - intros H. inversion H. left. reflexivity.
    - destruct (get_pdf_text d f rd) as [texts|x]; cbn [rbind]; [|discriminate].
      destruct (match texts with None => [PNone] | Some l => map PStr l end) as [|t ts].
      + exact IH.
      + destruct (id_truthy (f_id (fit fv (t :: ts)))) eqn:E; [|exact IH].
        intros H. inversion H; subst. right. exact E.
  Qed.

Lemma search_loop_ok urls : found_ok (search_loop e fv urls).
  Proof.
    induction urls as [|[url|] urls IH]; cbn [search_loop]; try (left; reflexivity).
    destruct (id_truthy (f_id (fit fv [PStr url]))) eqn:E; [right; exact E|].
    destruct (http_get e url) as [st text|]; [|left; reflexivity].
    destruct (id_truthy (f_id (fit fv [PStr text]))) eqn:E2; [right; exact E2|exact IH].
  Qed.

Lemma titles_loop_ok titles : found_ok (titles_loop cfg e fv titles).
  Proof.
    induction titles as [|t ts IH]; cbn [titles_loop]; [left; reflexivity|].
    destruct (id_truthy (f_id (find_identifier_in_google_search e fv t
                                 (numb_results_google_search cfg)))) eqn:E;
      [right; exact E|exact IH].
  Qed.

Lemma first_N_loop_ok d f nr nc readers r :
    first_N_loop e fv d f nr nc readers = Ok r -> found_ok r.
  Proof.
    induction readers as [|rd readers IH]; cbn [first_N_loop].
    - intros H. inversion H. left. reflexivity.
    - destruct (get_pdf_text d f rd) as [text|x]; cbn [rbind]; [|discriminate].
      destruct text as [[|p ps]|]; try exact IH.
      destruct (map clean_char (concat (p :: ps))) as [|c cs]; [exact IH|].
      match goal with |- context [if id_truthy (f_id ?r0) then _ else _] =>
        destruct (id_truthy (f_id r0)) eqn:E end; [|exact IH].
      intros H. inversion H; subst. right. exact E.
  Qed.
End FinderFacts.

Lemma run_finder_ok cfg e f m d r : run_finder cfg e f m d = Ok r -> found_ok r.
Proof.
  destruct m; cbn [run_finder].
  - unfold find_identifier_in_pdf_info. intros H. inversion H. apply fit_guard_ok.
  - apply pdf_text_loop_ok.
  - unfold find_identifier_in_filename.
    destruct f; cbn [py_name rbind]; [discriminate|]. intros H. inversion H. apply fit_guard_ok.
  - unfold find_identifier_by_googling_title.
    destruct (find_possible_titles d f) as [[[|t ts]|]|x]; cbn [rbind]; try discriminate;
      try (intros H; inversion H; left; reflexivity).
    destruct (negb (websearch cfg)); intros H; inversion H; [left; reflexivity|].
    apply titles_loop_ok.
  - unfold find_identifier_by_googling_first_N_characters_in_pdf.
    destruct (negb (websearch cfg)); [intros H; inversion H; left; reflexivity|].
    apply first_N_loop_ok.
Qed.

Lemma find_identifier_spec cfg e f m d r d' :
  find_identifier cfg e f m d = Ok (r, d') ->
  d' = d /\ rmethod r = m /\ exists fr, run_finder cfg e f m d = Ok fr /\
    identifier r = f_id fr /\ identifier_type r = f_desc fr /\ validation_info r = f_info fr.
Proof.
  unfold find_identifier. destruct (run_finder cfg e f m d) as [fr|x] eqn:E; cbn [rbind]; [|discriminate].
  destruct (py_name f) as [name|x]; cbn [rbind]; [|discriminate].
  intros H. inversion H; subst. repeat split. exists fr. auto.
Qed.

(** A result without identifier carries no validation. *)
Lemma find_identifier_absent cfg e f m d r d' :
  find_identifier cfg e f m d = Ok (r, d') -> identifier r = None -> validation_info r = VNone.
Proof.
  intros H Hn. apply find_identifier_spec in H as (_ & _ & fr & Hr & Hi & _ & Hv).
  apply run_finder_ok in Hr as [->|Ht].
  - exact Hv.
  - rewrite <- Hi, Hn in Ht. discriminate.
Qed.

(** [pdf2doi_singlefile] is the spec's ordered run of the first four
    strategies; when none of them yields an identifier it raises. *)
Lemma pdf2doi_singlefile_in_order cfg e f d :
  pdf2doi_singlefile cfg e f d =
  match run_in_order (find_identifier cfg e f) strategies_before_content_search d with
  | Ok ((r, tr), d') => if id_truthy (identifier r) then Ok ((r, tr), d') else Raise "AttributeError"
  | Raise x => Raise x
  end.
Proof.
  unfold pdf2doi_singlefile, strategies_before_content_search. cbn [run_in_order]. unfold mbind, mret.
  destruct (find_identifier cfg e f document_infos d) as [[r1 d1]|x]; [|reflexivity].
  destruct (id_truthy (identifier r1)) eqn:T1; [rewrite T1; reflexivity|].
  destruct (find_identifier cfg e f filename d1) as [[r2 d2]|x]; [|reflexivity].
  destruct (id_truthy (identifier r2)) eqn:T2; [cbn [fst snd]; rewrite T2; reflexivity|].
  destruct (find_identifier cfg e f document_text d2) as [[r3 d3]|x]; [|reflexivity].
  destruct (id_truthy (identifier r3)) eqn:T3; [cbn [fst snd]; rewrite T3; reflexivity|].
  destruct (find_identifier cfg e f title_google d3) as [[r4 d4]|x]; [|reflexivity].
  cbn [fst snd]. destruct (id_truthy (identifier r4)); reflexivity.
Qed.

(** Appending a strategy to an ordered run does not change a result that
    has an identifier. *)
Lemma run_in_order_snoc (run : method -> M resolution) (m : method) (ms : list method) :
  forall d r tr d', ms <> [] -> run_in_order run ms d = Ok ((r, tr), d') ->
  id_truthy (identifier r) = true -> run_in_order run (ms ++ [m]) d = Ok ((r, tr), d').
Proof.
  induction ms as [|m1 ms IH]; intros d r tr d' Hne H Ht; [contradiction|].
  destruct ms as [|m2 ms'].
  - cbn [run_in_order app] in H |- *. unfold mbind, mret in H |- *.
    destruct (run m1 d) as [[r1 d1]|x]; [|discriminate].
    assert (r1 = r /\ d1 = d' /\ tr = [m1]) as (-> & -> & ->) by (repeat split; congruence).
    rewrite Ht. reflexivity.
  - change ((m1 :: m2 :: ms') ++ [m]) with (m1 :: m2 :: (ms' ++ [m])).
    change (run_in_order run (m1 :: m2 :: ms') d) with
      (mbind (run m1) (fun r => if id_truthy (identifier r) then mret (r, [m1])
                              else (p <-- run_in_order run (m2 :: ms') ;; mret (fst p, m1 :: snd p))) d)
      in H.
    change (run_in_order run (m1 :: m2 :: (ms' ++ [m])) d) with
      (mbind (run m1) (fun r => if id_truthy (identifier r) then mret (r, [m1])
                              else (p <-- run_in_order run (m2 :: ms' ++ [m]) ;;
                                    mret (fst p, m1 :: snd p))) d).
    unfold mbind, mret in H |- *.
    destruct (run m1 d) as [[r1 d1]|x]; [|discriminate].
    destruct (id_truthy (identifier r1)); [exact H|].
    destruct (run_in_order run (m2 :: ms') d1) as [[[r2 tr2] d2]|x] eqn:E2; [|discriminate].
    assert (r2 = r /\ d2 = d' /\ tr = m1 :: tr2) as (-> & -> & ->)
      by (cbn [fst snd] in H; repeat split; congruence).
    change (m2 :: ms' ++ [m]) with ((m2 :: ms') ++ [m]).
    rewrite (IH d1 r tr2 d' ltac:(discriminate) E2 Ht). reflexivity.
Qed.

(** A result of an ordered run is the result of one of its strategies, on
    the unchanged state, when no strategy changes the state. *)
Lemma run_in_order_result (run : method -> M resolution) (ms : list method) :
  (forall m d r d', run m d = Ok (r, d') -> d' = d) ->
  forall d r tr d', run_in_order run ms d = Ok ((r, tr), d') ->
  d' = d /\ exists m, In m ms /\ run m d = Ok (r, d).
Proof.
  intros Hrun. induction ms as [|m ms IH]; intros d r tr d' H; [discriminate|].
  destruct ms as [|m' ms'].
  - cbn [run_in_order] in H. unfold mbind, mret in H.
    destruct (run m d) as [[r1 d1]|x] eqn:E; [|discriminate].
    inversion H; subst. rewrite (Hrun _ _ _ _ E) in E |- *.
    split; [reflexivity|]. exists m. split; [left; reflexivity|exact E].
  - change (run_in_order run (m :: m' :: ms') d) with
      (mbind (run m) (fun r => if id_truthy (identifier r) then mret (r, [m])
                             else (p <-- run_in_order run (m' :: ms') ;; mret (fst p, m :: snd p))) d)
      in H.
    unfold mbind, mret in H.
    destruct (run m d) as [[r1 d1]|x] eqn:E; [|discriminate].
    pose proof (Hrun _ _ _ _ E) as ->.
    destruct (id_truthy (identifier r1)).
    + inversion H; subst. split; [reflexivity|]. exists m. split; [left; reflexivity|exact E].
    + destruct (run_in_order run (m' :: ms') d) as [[[r2 tr2] d2]|x] eqn:E2; [|discriminate].
      inversion H; subst. destruct (IH _ _ _ _ E2) as [-> (m2 & Hin & Hm2)].
      split; [reflexivity|]. exists m2. split; [right; exact Hin|exact Hm2].
Qed.

Lemma find_identifier_state cfg e f m d r d' :
  find_identifier cfg e f m d = Ok (r, d') -> d' = d.
Proof. intros H. apply find_identifier_spec in H. tauto. Qed.

(** A result of [pdf2doi_singlefile] is the ordered run's result for the
    first four strategies, and it has an identifier. *)
Lemma pdf2doi_singlefile_ok cfg e f d r tr d' :
  pdf2doi_singlefile cfg e f d = Ok ((r, tr), d') ->
  run_in_order (find_identifier cfg e f) strategies_before_content_search d = Ok ((r, tr), d') /\
  id_truthy (identifier r) = true.
Proof.
  rewrite pdf2doi_singlefile_in_order.
  destruct (run_in_order (find_identifier cfg e f) strategies_before_content_search d)
    as [[[r1 tr1] d1]|x]; [|discriminate].
  destruct (id_truthy (identifier r1)) eqn:T; [|discriminate].
  intros H. assert (r1 = r /\ tr1 = tr /\ d1 = d') as (-> & -> & ->) by (repeat split; congruence).
  split; [reflexivity|exact T].
Qed.

Lemma pdf2doi_singlefile_result cfg e f d r tr d' :
  pdf2doi_singlefile cfg e f d = Ok ((r, tr), d') ->
  d' = d /\ exists m, find_identifier cfg e f m d = Ok (r, d).
Proof.
  intros H. apply pdf2doi_singlefile_ok in H as [H _].
  apply run_in_order_result in H as [-> (m & _ & Hm)]; [|apply find_identifier_state].
  split; [reflexivity|]. exists m. exact Hm.
Qed.

(* ================================================================== *)
(** * Further lemmas *)

Lemma doi_attempts_transient (server : nat -> response) (k : nat) :
  forall sent, (forall n, sent <= n < sent + k ->
                 exists st t, server n = Resp st t /\ transient st t = true) ->
  doi_attempts server k sent = (WPyNone, sent + k).
Proof.
  induction k as [|k IH]; intros sent H; simpl; [rewrite Nat.add_0_r; reflexivity|].
  destruct (H sent ltac:(lia)) as (st & t & -> & Ht). rewrite Ht.
  rewrite IH; [f_equal; lia|]. intros n Hn. apply H. lia.
Qed.

Lemma doi_attempts_bound (server : nat -> response) (k : nat) :
  forall sent, snd (doi_attempts server k sent) <= sent + k.
Proof.
  induction k as [|k IH]; intros sent; simpl; [lia|].
  destruct (server sent) as [st t|]; simpl; [|lia].
  destruct (transient st t); [specialize (IH (S sent)); lia|].
  destruct (containsb _ _); simpl; lia.
Qed.

Lemma standardise_doi_nil : standardise_doi [] = None.
Proof. reflexivity. Qed.

(** The filename texts of [2407.03393.pdf]. *)
Lemma fit_2407 (fv : pystr -> what -> vres) :
  vtruthy (fv (s2l "2407.03393") WArxiv) = true ->
  find_identifier_in_text fv (map PStr (filename_texts (s2l "2407.03393.pdf"))) =
  Found (Some (s2l "2407.03393")) (Some "arxiv ID"%string) (fv (s2l "2407.03393") WArxiv).
Proof.
  intros H.
  replace (map PStr (filename_texts (s2l "2407.03393.pdf"))) with
    [PStr (s2l "2407.03393.pdf"); PStr (s2l "2407.03393.pdf"); PStr (s2l "2407.03393");
     PStr (s2l "2407")] by (vm_compute; reflexivity).
  rewrite fit_cons.
  replace (candidates doi_regexp (PStr (s2l "2407.03393.pdf"))) with (@nil pystr)
    by (vm_compute; reflexivity).
  replace (candidates arxiv_regexp (PStr (s2l "2407.03393.pdf"))) with [s2l "2407.03393"]
    by (vm_compute; reflexivity).
  cbn [first_valid]. rewrite H. reflexivity.
Qed.

Lemma validate_2407 cfg e :
  (webvalidation cfg = false \/
   exists it its, arxiv_feed e (s2l "http://export.arxiv.org/api/query?search_query=id:"
                                ++ s2l "2407.03393") = Feed (it :: its) /\ it <> []) ->
  vtruthy (validate cfg e (s2l "2407.03393") WArxiv) = true.
Proof.
  intros H. unfold validate.
  change (s2l "2407.03393") with ("2"%char :: s2l "407.03393") at 1.
  cbv iota beta.
  replace (re_match true arxiv2007_pattern (s2l "2407.03393")) with true
    by (vm_compute; reflexivity).
  destruct H as [Hw|(it & its & Hf & Hit)].
  - rewrite Hw. reflexivity.
  - destruct (webvalidation cfg); [|reflexivity].
    unfold validate_arxivID_web. rewrite Hf.
    destruct it as [|kv it]; [contradiction|]. reflexivity.
Qed.

(* ================================================================== *)
(** * The claims *)

(** C1: [pdf2doi_singlefile] writes nothing back.  Even with
    [save_identifier_metadata] set, when resolve returns an identifier
    found by a strategy other than the metadata one, the document is left
    as it was, and a later metadata pass on it finds nothing. *)
Theorem resolve_no_write_back cfg e f d r tr d' :
  save_identifier_metadata cfg = true ->
  pdf2doi_singlefile cfg e f d = Ok ((r, tr), d') ->
  id_truthy (identifier r) = true -> rmethod r <> document_infos ->
  d' = d /\ run_finder cfg e f document_infos d' = Ok not_found.
Proof.
  intros _ H Hid Hm.
  destruct (pdf2doi_singlefile_result _ _ _ _ _ _ _ H) as [-> _].
  split; [reflexivity|].
  unfold pdf2doi_singlefile, mbind in H.
  destruct (find_identifier cfg e f document_infos d) as [[r1 d1]|x] eqn:E1; [|discriminate].
  apply find_identifier_spec in E1 as (-> & Hm1 & fr & Hfr & Hi1 & _).
  destruct (id_truthy (identifier r1)) eqn:T1.
  - unfold mret in H. inversion H; subst. contradiction.
  - cbn [run_finder] in Hfr |- *. unfold find_identifier_in_pdf_info in Hfr |- *.
    destruct (id_truthy (f_id (fst (pdf_info_search (validate cfg e) d keysToCheckFirst_main))))
      eqn:T; [|reflexivity].
    inversion Hfr; subst. rewrite Hi1, T in T1. discriminate.
Qed.

Lemma resolve_no_write_back_witness :
  save_identifier_metadata cfg_nwv = true /\
  pdf2doi_singlefile cfg_nwv env0 (FObj (s2l "/tmp/2407.03393.pdf")) doc_empty =
    Ok ((Resolution (Some (s2l "2407.03393")) (Some "arxiv ID"%string)
           (s2l "/tmp/2407.03393.pdf") filename VTrue, [document_infos; filename]), doc_empty) /\
  doc_empty = doc_empty /\
  run_finder cfg_nwv env0 (FObj (s2l "/tmp/2407.03393.pdf")) document_infos doc_empty = Ok not_found.
Proof.
  split; [reflexivity|]. split; [vm_compute; reflexivity|].
  apply (resolve_no_write_back cfg_nwv env0 (FObj (s2l "/tmp/2407.03393.pdf")) doc_empty
           (Resolution (Some (s2l "2407.03393")) (Some "arxiv ID"%string)
              (s2l "/tmp/2407.03393.pdf") filename VTrue)
           [document_infos; filename] doc_empty).
  - reflexivity.
  - vm_compute. reflexivity.
  - reflexivity.
  - discriminate.
Defined.

(** C2: with every reply transient, [validate_doi_web] sends its 10
    requests and falls off its loop, returning [None]; [validate] then
    gives [False] (rejected), not [None] (indeterminate).  In all cases at
    most 10 requests are sent. *)
Theorem doi_retries_exhausted_rejected cfg e identifier doi_id :
  webvalidation cfg = true ->
  standardise_doi identifier = Some doi_id ->
  (forall n, n < 10 -> exists st t,
       doi_server e (s2l "http://dx.doi.org/" ++ doi_id) n = Resp st t /\ transient st t = true) ->
  (forall e' doi, snd (validate_doi_web e' doi) <= 10) /\
  validate_doi_web e doi_id = (WPyNone, 10) /\
  validate cfg e identifier WDoi = VFalse.
Proof.
  intros Hw Hs Ht.
  assert (Hv : validate_doi_web e doi_id = (WPyNone, 10)).
  { apply doi_attempts_transient. intros n Hn. apply Ht. lia. }
  split; [intros e' doi; apply (doi_attempts_bound _ 10 0)|]. split; [exact Hv|].
  unfold validate. destruct identifier as [|c rest].
  - rewrite standardise_doi_nil in Hs. discriminate.
  - rewrite Hs, Hw, Hv. reflexivity.
Qed.

Lemma doi_retries_exhausted_rejected_witness :
  validate_doi_web env0 (s2l "10.1103/physrev.47.777") = (WPyNone, 10) /\
  validate default_config env0 (s2l "10.1103/PhysRev.47.777") WDoi = VFalse.
Proof.
  destruct (doi_retries_exhausted_rejected default_config env0 (s2l "10.1103/PhysRev.47.777")
              (s2l "10.1103/physrev.47.777")) as (_ & H1 & H2).
  - reflexivity.
  - vm_compute. reflexivity.
  - intros n _. exists 503, []. split; reflexivity.
  - split; assumption.
Defined.

(** C2 (counterexample): the DOI server answers 503 to every request;
    the outcome of validating 10.1103/PhysRev.47.777 is [False]
    (rejected), not [None] (indeterminate). *)
Lemma doi_retries_exhausted_not_indeterminate :
  validate default_config env0 (s2l "10.1103/PhysRev.47.777") WDoi = VFalse /\
  validate default_config env0 (s2l "10.1103/PhysRev.47.777") WDoi <> VNone.
Proof. split; vm_compute; [reflexivity | discriminate]. Qed.

(** C3 (failing input): a document whose only content is ['foo']. The
    spec's ordered run of the five strategies finds nothing and returns a
    result without identifier from the content search; resolve raises
    [AttributeError] instead, before the content search. *)
Lemma resolve_content_search_never_runs :
  pdf2doi_singlefile default_config env0 (FObj (s2l "/tmp/foo.pdf")) doc_foo = Raise "AttributeError" /\
  run_in_order (find_identifier default_config env0 (FObj (s2l "/tmp/foo.pdf"))) strategy_order doc_foo =
    Ok ((Resolution None None (s2l "/tmp/foo.pdf") first_N_characters_google VNone, strategy_order),
        doc_foo).
Proof. split; vm_compute; reflexivity. Qed.

(** C3: resolve is the spec's ordered run of the first four strategies
    (metadata, filename, document text, title search), stopping at the
    first identifier; when none of them yields one, it raises
    [AttributeError] where the spec runs the content search. Every result
    it returns is the result of the spec's run of all five strategies.
    When the metadata strategy yields an identifier, resolve (on a file
    object) returns it via the metadata strategy, runs no other strategy,
    and leaves the document as it was. *)
Theorem resolve_strategy_order cfg e name d :
  id_truthy (f_id (fst (pdf_info_search (validate cfg e) d keysToCheckFirst_main))) = true ->
  (forall f d', pdf2doi_singlefile cfg e f d' =
     match run_in_order (find_identifier cfg e f) strategies_before_content_search d' with
     | Ok ((r, tr), d'') =>
         if id_truthy (identifier r) then Ok ((r, tr), d'') else Raise "AttributeError"
     | Raise x => Raise x
     end) /\
  (forall f d' r tr d'', pdf2doi_singlefile cfg e f d' = Ok ((r, tr), d'') ->
     run_in_order (find_identifier cfg e f) strategy_order d' = Ok ((r, tr), d'')) /\
  pdf2doi_singlefile cfg e (FObj name) d =
    Ok ((Resolution (f_id (fst (pdf_info_search (validate cfg e) d keysToCheckFirst_main)))
                    (f_desc (fst (pdf_info_search (validate cfg e) d keysToCheckFirst_main)))
                    name document_infos
                    (f_info (fst (pdf_info_search (validate cfg e) d keysToCheckFirst_main))),
         [document_infos]), d).
Proof.
  intros H. split; [intros f d'; apply pdf2doi_singlefile_in_order|]. split.
  - intros f d' r tr d'' Hr. apply pdf2doi_singlefile_ok in Hr as [Hr Ht].
    exact (run_in_order_snoc _ first_N_characters_google strategies_before_content_search
             d' r tr d'' ltac:(discriminate) Hr Ht).
  - unfold pdf2doi_singlefile, mbind at 1, find_identifier at 1.
    cbn [run_finder]. unfold find_identifier_in_pdf_info. rewrite H.
    cbn [rbind py_name identifier]. rewrite H. reflexivity.
Qed.

Lemma resolve_strategy_order_witness :
  pdf2doi_singlefile default_config env_ok (FObj (s2l "/tmp/paper.pdf")) doc_two_keys =
    Ok ((Resolution (Some (s2l "10.1038/nphys1170")) (Some "DOI"%string) (s2l "/tmp/paper.pdf")
           document_infos (VStr (s2l "@article{x}")), [document_infos]), doc_two_keys).
Proof.
  destruct (resolve_strategy_order default_config env_ok (s2l "/tmp/paper.pdf") doc_two_keys)
    as (_ & _ & H); [vm_compute; reflexivity|].
  rewrite H. vm_compute. reflexivity.
Defined.

(** C4 (counterexample): for the document text of the spec's scenario,
    resolve returns the candidate as matched, [10.1103/PhysRev.47.777],
    not its normalized form [10.1103/physrev.47.777]. *)
Lemma resolve_identifier_not_normalized :
  pdf2doi_singlefile default_config env_ok (FObj (s2l "/tmp/paper.pdf")) doc_epr =
    Ok ((Resolution (Some (s2l "10.1103/PhysRev.47.777")) (Some "DOI"%string)
           (s2l "/tmp/paper.pdf") document_text (VStr (s2l "@article{x}")),
         [document_infos; filename; document_text]), doc_epr) /\
  standardise_doi (s2l "10.1103/PhysRev.47.777") = Some (s2l "10.1103/physrev.47.777") /\
  s2l "10.1103/PhysRev.47.777" <> s2l "10.1103/physrev.47.777".
Proof.
  split; [vm_compute; reflexivity|]. split; [vm_compute; reflexivity|]. discriminate.
Qed.

(** C4: the identifier [find_identifier_in_text] returns (the one every
    strategy reports) is a candidate exactly as a pattern extracted it
    from one of the searched texts; it is validated as it is, and the
    validation reported is the validator's answer for it. *)
Theorem find_identifier_in_text_raw fv texts c :
  f_id (find_identifier_in_text fv texts) = Some c ->
  exists t, In t texts /\
    ((f_desc (find_identifier_in_text fv texts) = Some "DOI"%string /\
      In c (candidates doi_regexp t) /\ f_info (find_identifier_in_text fv texts) = fv c WDoi) \/
     (f_desc (find_identifier_in_text fv texts) = Some "arxiv ID"%string /\
      In c (candidates arxiv_regexp t) /\ f_info (find_identifier_in_text fv texts) = fv c WArxiv)).
Proof.
  induction texts as [|t rest IH]; [discriminate|]. rewrite fit_cons.
  destruct (first_valid fv WDoi (candidates doi_regexp t)) as [[c1 v1]|] eqn:E1.
  - cbn [f_id f_desc f_info]. intros H. inversion H; subst.
    apply first_valid_sound in E1 as (Hin & -> & _).
    exists t. split; [left; reflexivity|]. left. auto.
  - destruct (first_valid fv WArxiv (candidates arxiv_regexp t)) as [[c2 v2]|] eqn:E2.
    + cbn [f_id f_desc f_info]. intros H. inversion H; subst.
      apply first_valid_sound in E2 as (Hin & -> & _).
      exists t. split; [left; reflexivity|]. right. auto.
    + intros H. destruct (IH H) as (t' & Hin & P). exists t'. split; [right; exact Hin|exact P].
Qed.

Lemma find_identifier_in_text_raw_witness :
  f_id (find_identifier_in_text (validate default_config env_ok)
          [PStr (s2l "DOI: 10.1103/PhysRev.47.777 Can Quantum Mechanical...")])
    = Some (s2l "10.1103/PhysRev.47.777") /\
  exists t, In t [PStr (s2l "DOI: 10.1103/PhysRev.47.777 Can Quantum Mechanical...")] /\
    In (s2l "10.1103/PhysRev.47.777") (candidates doi_regexp t).
Proof.
  assert (H : f_id (find_identifier_in_text (validate default_config env_ok)
                      [PStr (s2l "DOI: 10.1103/PhysRev.47.777 Can Quantum Mechanical...")])
              = Some (s2l "10.1103/PhysRev.47.777")) by (vm_compute; reflexivity).
  split; [exact H|].
  destruct (find_identifier_in_text_raw _ _ _ H) as (t & Hin & [(_ & Hc & _)|(Hd & _)]).
  - exists t. split; assumption.
  - vm_compute in Hd. discriminate.
Defined.

(** C5: [standardise_doi] is idempotent: when it gives [y] for [x], it
    gives [y] again for [y]. *)
Theorem standardise_doi_idempotent x y :
  standardise_doi x = Some y -> standardise_doi y = Some y.
Proof.
  intros H. apply standardise_doi_canon in H as (reg & suf & -> & Hr & Hs).
  unfold standardise_doi. rewrite (py_lower_canon reg suf Hr Hs).
  destruct (finditer_canon reg suf Hr Hs) as (g & -> & H4 & H6).
  cbn [rev app]. unfold reg_group, suffix_group. rewrite H4, H6. reflexivity.
Qed.

Lemma standardise_doi_idempotent_witness :
  standardise_doi (s2l "DOI:10.1103/PhysRev.47.777") = Some (s2l "10.1103/physrev.47.777") /\
  standardise_doi (s2l "10.1103/physrev.47.777") = Some (s2l "10.1103/physrev.47.777").
Proof.
  assert (H : standardise_doi (s2l "DOI:10.1103/PhysRev.47.777") =
              Some (s2l "10.1103/physrev.47.777")) by (vm_compute; reflexivity).
  split; [exact H|]. exact (standardise_doi_idempotent _ _ H).
Defined.

(** C6: [pdf2doi_singlefile] passes its argument, a path string, to
    [find_identifier], which reads [file.name] from it: every call raises
    [AttributeError], whatever the document, the configuration and the
    services. *)
Theorem pdf2doi_singlefile_path_raises cfg e p d :
  pdf2doi_singlefile cfg e (FPath p) d = Raise "AttributeError".
Proof. reflexivity. Qed.

(** C7: the keys checked first are ['/doi'] and ['/identfier'], not the
    write-back key ['/identifier']: for a document whose information
    dictionary lists ['/Title'] before ['/identifier'], ['/Title'] is
    checked first. *)
Theorem pdf_info_keys_checked_order :
  mem_str (s2l "/identifier") keysToCheckFirst_main = false /\
  snd (pdf_info_search (validate cfg_nwv env0) doc_title_first keysToCheckFirst_main)
    = [s2l "/Title"; s2l "/identifier"].
Proof. split; vm_compute; reflexivity. Qed.

(** C8: the filename strategy searches the file name and then the name
    with its dot-separated suffixes stripped one by one; and for a file
    named [2407.03393.pdf] whose metadata yields no identifier, resolve
    returns the arXiv ID [2407.03393], confirmed, via the filename
    strategy, when web validation is off or the arXiv service returns a
    non-empty entry for it. *)
Theorem filename_strategy_arxiv cfg e p d :
  (webvalidation cfg = false \/
   exists it its, arxiv_feed e (s2l "http://export.arxiv.org/api/query?search_query=id:"
                                ++ s2l "2407.03393") = Feed (it :: its) /\ it <> []) ->
  basename p = s2l "2407.03393.pdf" ->
  id_truthy (f_id (fst (pdf_info_search (validate cfg e) d keysToCheckFirst_main))) = false ->
  (forall name, filename_texts name = name :: stripped_variants name) /\
  exists v, vtruthy v = true /\
    pdf2doi_singlefile cfg e (FObj p) d =
      Ok ((Resolution (Some (s2l "2407.03393")) (Some "arxiv ID"%string) p filename v,
           [document_infos; filename]), d).
Proof.
  intros Hv Hb Hi. split; [apply filename_texts_variants|].
  pose proof (validate_2407 cfg e Hv) as Ht.
  exists (validate cfg e (s2l "2407.03393") WArxiv). split; [exact Ht|].
  unfold pdf2doi_singlefile, mbind at 1, find_identifier at 1.
  cbn [run_finder]. unfold find_identifier_in_pdf_info. rewrite Hi.
  cbn [rbind py_name identifier not_found f_id id_truthy].
  unfold mbind, find_identifier. cbn [run_finder]. unfold find_identifier_in_filename.
  cbn [rbind py_name]. rewrite Hb. unfold fit. rewrite (fit_2407 _ Ht).
  reflexivity.
Qed.

Lemma filename_strategy_arxiv_witness :
  exists v, vtruthy v = true /\
    pdf2doi_singlefile default_config env_ok (FObj (s2l "/tmp/2407.03393.pdf")) doc_empty =
      Ok ((Resolution (Some (s2l "2407.03393")) (Some "arxiv ID"%string)
             (s2l "/tmp/2407.03393.pdf") filename v, [document_infos; filename]), doc_empty).
Proof.
  destruct (filename_strategy_arxiv default_config env_ok (s2l "/tmp/2407.03393.pdf") doc_empty)
    as [_ (v & Hv & H)].
  - right. exists [(s2l "id", s2l "x")], []. split; [reflexivity|discriminate].
  - vm_compute. reflexivity.
  - vm_compute. reflexivity.
  - exists v. split; assumption.
Defined.

(** C9: every result dictionary [find_identifier] builds, whatever the
    strategy, document and configuration, has no validation when it has
    no identifier; so has every result of resolve, which moreover always
    has an identifier (when no strategy yields one, resolve raises). *)
Theorem resolve_absent_no_validation cfg e f d :
  (forall m r d', find_identifier cfg e f m d = Ok (r, d') ->
     identifier r = None -> validation_info r = VNone) /\
  (forall r tr d', pdf2doi_singlefile cfg e f d = Ok ((r, tr), d') ->
     id_truthy (identifier r) = true /\ (identifier r = None -> validation_info r = VNone)).
Proof.
  split.
  - intros m r d' H. exact (find_identifier_absent _ _ _ _ _ _ _ H).
  - intros r tr d' H. split; [exact (proj2 (pdf2doi_singlefile_ok _ _ _ _ _ _ _ H))|].
    apply pdf2doi_singlefile_result in H as [_ (m & Hm)].
    exact (find_identifier_absent _ _ _ _ _ _ _ Hm).
Qed.

Lemma resolve_absent_no_validation_witness :
  find_identifier default_config env0 (FObj (s2l "/tmp/foo.pdf")) filename doc_foo =
    Ok (Resolution None None (s2l "/tmp/foo.pdf") filename VNone, doc_foo) /\
  validation_info (Resolution None None (s2l "/tmp/foo.pdf") filename VNone) = VNone.
Proof.
  assert (H : find_identifier default_config env0 (FObj (s2l "/tmp/foo.pdf")) filename doc_foo =
    Ok (Resolution None None (s2l "/tmp/foo.pdf") filename VNone, doc_foo))
    by (vm_compute; reflexivity).
  split; [exact H|].
  exact (proj1 (resolve_absent_no_validation default_config env0 (FObj (s2l "/tmp/foo.pdf")) doc_foo)
           filename _ _ H eq_refl).
Defined.

(** C10 (counterexample): over a list of texts, the texts are searched
    one after another; an arXiv ID in the first text is returned although
    the second text holds a DOI that validates. *)
Lemma find_identifier_in_text_list_order :
  vtruthy (validate default_config env_ok (s2l "doi:10.1103/physrev.47.777") WDoi) = true /\
  f_desc (find_identifier_in_text (validate default_config env_ok)
            [PStr (s2l "arXiv:2407.03393"); PStr (s2l "doi:10.1103/physrev.47.777")])
    = Some "arxiv ID"%string.
Proof. split; vm_compute; reflexivity. Qed.

(** C10: within one text every DOI version and its candidates come before
    any arXiv version: the first text of a list in which some candidate
    validates gives a ['DOI'] result when a DOI candidate of it validates,
    wherever the candidates stand in the text. *)
Theorem find_identifier_in_text_doi_first fv pre t rest c :
  (forall t', In t' pre -> f_id (find_identifier_in_text fv [t']) = None) ->
  In c (candidates doi_regexp t) -> vtruthy (fv c WDoi) = true ->
  f_desc (find_identifier_in_text fv (pre ++ t :: rest)) = Some "DOI"%string.
Proof.
  intros Hpre Hin Hv. rewrite (fit_app fv pre (t :: rest) Hpre), fit_cons.
  destruct (first_valid_complete fv WDoi _ c Hin Hv) as (c' & v & ->). reflexivity.
Qed.

Lemma find_identifier_in_text_doi_first_witness :
  f_desc (find_identifier_in_text (validate default_config env_ok)
            ([] ++ [PStr (s2l "arXiv:2407.03393 doi:10.1103/physrev.47.777")]))
    = Some "DOI"%string.
Proof.
  apply (find_identifier_in_text_doi_first (validate default_config env_ok) []
           (PStr (s2l "arXiv:2407.03393 doi:10.1103/physrev.47.777")) []
           (s2l "10.1103/physrev.47.777")).
  - intros t' [].
  - vm_compute. left. reflexivity.
  - vm_compute. reflexivity.
Defined.


(* ================================================================== *)
(** * Lemmas about the rest of the code *)

(** [Ok a = Ok b]: replace [b] by [a]. *)
Ltac ok_inv H :=
  lazymatch type of H with
  | Ok ?a = Ok ?b => let E := fresh "E" in assert (E : b = a) by congruence; rewrite E in *; clear H
  end.

(** ** Where a finder's result comes from *)

Section FoundBy.
Variable fv : pystr -> what -> vres.

Lemma fit_found_by (texts : list pyval) : found_by fv (find_identifier_in_text fv texts).
Proof.
  induction texts as [|t ts IH]; [left; reflexivity|].
  rewrite fit_cons.
  destruct (first_valid fv WDoi (candidates doi_regexp t)) as [[c v]|] eqn:E1.
  - apply first_valid_sound in E1 as (_ & -> & Hv). right. exists c, WDoi. auto.
  - destruct (first_valid fv WArxiv (candidates arxiv_regexp t)) as [[c v]|] eqn:E2; [|exact IH].
    apply first_valid_sound in E2 as (_ & -> & Hv). right. exists c, WArxiv. auto.
Qed.

Lemma guard_found_by (r : found) :
  found_by fv r -> found_by fv (if id_truthy (f_id r) then r else not_found).
Proof. intros H. destruct (id_truthy (f_id r)); [exact H|left; reflexivity]. Qed.

Lemma info_loop_found_by (Keys : list pystr) :
  forall pdfinfo, found_by fv (fst (info_loop fv Keys pdfinfo)).
Proof.
  induction Keys as [|key Keys IH]; intros pdfinfo; cbn [info_loop]; [left; reflexivity|].
  destruct (assoc key pdfinfo) as [value|]; [|apply IH].
  destruct (negb (mem_str (py_lower key) KeysNotToUse)); [|apply IH].
  destruct (id_truthy (f_id (fit fv [PStr value]))); [apply fit_found_by|].
  specialize (IH (del_key key pdfinfo)).
  destruct (info_loop fv Keys (del_key key pdfinfo)). exact IH.
Qed.

Lemma pdf_text_loop_found_by d f readers r :
  pdf_text_loop fv d f readers = Ok r -> found_by fv r.
Proof.
  induction readers as [|rd readers IH]; cbn [pdf_text_loop].
  - intros H; ok_inv H. left. reflexivity.
  - destruct (get_pdf_text d f rd) as [texts|x]; cbn [rbind]; [|discriminate].
    destruct (match texts with None => [PNone] | Some l => map PStr l end) as [|t ts]; [exact IH|].
    destruct (id_truthy (f_id (fit fv (t :: ts)))); [|exact IH].
    intros H; ok_inv H. apply fit_found_by.
Qed.

Lemma search_loop_found_by e urls : found_by fv (search_loop e fv urls).
Proof.
  induction urls as [|[url|] urls IH]; cbn [search_loop]; try (left; reflexivity).
  destruct (id_truthy (f_id (fit fv [PStr url]))); [apply fit_found_by|].
  destruct (http_get e url) as [st text|]; [|left; reflexivity].
  destruct (id_truthy (f_id (fit fv [PStr text]))); [apply fit_found_by|exact IH].
Qed.

Lemma titles_loop_found_by cfg e titles : found_by fv (titles_loop cfg e fv titles).
Proof.
  induction titles as [|t ts IH]; cbn [titles_loop]; [left; reflexivity|].
  destruct (id_truthy _); [apply search_loop_found_by|exact IH].
Qed.

Lemma first_N_loop_found_by e d f nr nc readers r :
  first_N_loop e fv d f nr nc readers = Ok r -> found_by fv r.
Proof.
  induction readers as [|rd readers IH]; cbn [first_N_loop].
  - intros H; ok_inv H. left. reflexivity.
  - destruct (get_pdf_text d f rd) as [text|x]; cbn [rbind]; [|discriminate].
    destruct text as [[|p ps]|]; try exact IH.
    destruct (map clean_char (concat (p :: ps))) as [|c t]; [exact IH|].
    destruct (id_truthy _); [|exact IH].
    intros H; ok_inv H. apply search_loop_found_by.
Qed.
End FoundBy.

Lemma run_finder_found_by cfg e f m d r :
  run_finder cfg e f m d = Ok r -> found_by (validate cfg e) r.
Proof.
  destruct m; cbn [run_finder].
  - unfold find_identifier_in_pdf_info, pdf_info_search. intros H; ok_inv H.
    apply guard_found_by. destruct (doc_info d); [apply info_loop_found_by|left; reflexivity].
  - apply pdf_text_loop_found_by.
  - unfold find_identifier_in_filename.
    destruct f; cbn [py_name rbind]; [discriminate|]. intros H; ok_inv H.
    apply guard_found_by, fit_found_by.
  - unfold find_identifier_by_googling_title.
    destruct (find_possible_titles d f) as [[[|t ts]|]|x]; cbn [rbind]; try discriminate;
      try (intros H; ok_inv H; left; reflexivity).
    destruct (negb (websearch cfg)); intros H; ok_inv H; [left; reflexivity|].
    apply titles_loop_found_by.
  - unfold find_identifier_by_googling_first_N_characters_in_pdf.
    destruct (negb (websearch cfg)); [intros H; ok_inv H; left; reflexivity|].
    apply first_N_loop_found_by.
Qed.

Lemma validate_nil cfg e w : validate cfg e [] w = VNone.
Proof. reflexivity. Qed.

Lemma find_identifier_name cfg e f m d r d' :
  find_identifier cfg e f m d = Ok (r, d') -> f = FObj (path r).
Proof.
  unfold find_identifier. destruct (run_finder cfg e f m d) as [fr|x]; cbn [rbind]; [|discriminate].
  destruct f as [p|name]; cbn [py_name rbind]; [discriminate|].
  intros H. inversion H. reflexivity.
Qed.

(** The shape of every result of the pipeline. *)
Lemma pipeline_shape cfg e f d r tr d' :
  pdf2doi_singlefile cfg e f d = Ok ((r, tr), d') ->
  f = FObj (path r) /\
  ((identifier r = None /\ identifier_type r = None /\ validation_info r = VNone) \/
   exists c w, identifier r = Some c /\ c <> [] /\ identifier_type r = Some (kind_desc w) /\
     validation_info r = validate cfg e c w /\ vtruthy (validation_info r) = true).
Proof.
  intros H. apply pdf2doi_singlefile_result in H as [_ (m & Hm)].
  split; [eapply find_identifier_name; exact Hm|].
  apply find_identifier_spec in Hm as (_ & _ & fr & Hr & Hi & Ht & Hv).
  apply run_finder_found_by in Hr as [->|(c & w & -> & Hc)].
  - left. auto.
  - right. exists c, w. cbn [f_id f_desc f_info] in *. rewrite Hi, Ht, Hv.
    repeat split; auto. intros ->. rewrite validate_nil in Hc. discriminate.
Qed.

Lemma validate_offline cfg e c w :
  webvalidation cfg = false ->
  validate cfg e c w = VNone \/ validate cfg e c w = VFalse \/ validate cfg e c w = VTrue.
Proof.
  intros Hw. unfold validate. rewrite Hw.
  destruct c; [auto|]. destruct w.
  - destruct (standardise_doi _); auto.
  - destruct (re_match _ _ _); auto.
Qed.

Lemma pipeline_result_offline cfg e r :
  webvalidation cfg = false -> pipeline_result cfg e r ->
  (validation_info r = VTrue /\ exists c, identifier r = Some c) \/
  (validation_info r = VNone /\ identifier r = None).
Proof.
  intros Hw (f & d & tr & d' & H). apply pipeline_shape in H as [_ [(Hi & _ & Hv)|(c & w & Hi & _ & _ & Hv & Ht)]].
  - right. auto.
  - left. split; [|exists c; exact Hi].
    rewrite Hv in Ht |- *.
    destruct (validate_offline cfg e c w Hw) as [E|[E|E]]; rewrite E in Ht |- *;
      [discriminate|discriminate|reflexivity].
Qed.

Lemma pipeline_result_truthy cfg e r :
  pipeline_result cfg e r -> vtruthy (validation_info r) = id_truthy (identifier r).
Proof.
  intros (f & d & tr & d' & H). apply pipeline_shape in H as [_ [(Hi & _ & Hv)|(c & w & Hi & Hc & _ & _ & Ht)]].
  - rewrite Hi, Hv. reflexivity.
  - rewrite Hi, Ht. destruct c; [contradiction|reflexivity].
Qed.

Lemma find_identifier_env cfg e e' f m :
  webvalidation cfg = false -> google_search e = google_search e' -> http_get e = http_get e' ->
  find_identifier cfg e f m = find_identifier cfg e' f m.
Proof.
  intros Hw Hg Hh.
  assert (Hv : validate cfg e = validate cfg e').
  { extensionality c. extensionality w. unfold validate. rewrite Hw.
    destruct c; [reflexivity|]. destruct w; reflexivity. }
  assert (Hs : forall fv urls, search_loop e fv urls = search_loop e' fv urls).
  { intros fv urls. induction urls as [|[url|] urls IH]; cbn [search_loop]; try reflexivity.
    rewrite Hh. destruct (http_get e' url); [rewrite IH|]; reflexivity. }
  assert (Hq : forall fv q n, find_identifier_in_google_search e fv q n =
                              find_identifier_in_google_search e' fv q n).
  { intros. unfold find_identifier_in_google_search. rewrite Hg. apply Hs. }
  assert (Ht : forall fv l, titles_loop cfg e fv l = titles_loop cfg e' fv l).
  { intros fv l. induction l as [|t l IH]; cbn [titles_loop]; [reflexivity|].
    rewrite Hq, IH. reflexivity. }
  extensionality d. unfold find_identifier, run_finder. rewrite Hv.
  destruct m; try reflexivity.
  - unfold find_identifier_by_googling_title.
    destruct (find_possible_titles d f) as [[[|t ts]|]|x]; cbn [rbind]; try reflexivity.
    destruct (negb (websearch cfg)); [reflexivity|]. rewrite Ht. reflexivity.
  - unfold find_identifier_by_googling_first_N_characters_in_pdf.
    destruct (negb (websearch cfg)); [reflexivity|].
    assert (forall readers,
              first_N_loop e (validate cfg e') d f (default_numb_results cfg)
                (default_numb_characters cfg) readers =
              first_N_loop e' (validate cfg e') d f (default_numb_results cfg)
                (default_numb_characters cfg) readers) as ->;
      [|reflexivity].
    intros readers. induction readers as [|rd readers IH]; cbn [first_N_loop]; [reflexivity|].
    destruct (get_pdf_text d f rd) as [[[|p ps]|]|x]; cbn [rbind]; try exact IH; [|reflexivity].
    destruct (map clean_char (concat (p :: ps))); [exact IH|].
    rewrite Hq, IH. reflexivity.
Qed.

(** ** The pipeline and the savers *)

(** X1: the result of [pdf2doi_singlefile] on a file object records the
    file's name as its path. Either it holds no identifier, no type and the
    validation info [None], or a non-empty identifier, its kind (['DOI'] or
    ['arxiv ID']) and the truthy outcome of validating that identifier as
    that kind. *)
Theorem pdf2doi_singlefile_result_shape cfg e f d r tr d' :
  pdf2doi_singlefile cfg e f d = Ok ((r, tr), d') ->
  f = FObj (path r) /\
  ((identifier r = None /\ identifier_type r = None /\ validation_info r = VNone) \/
   exists c w, identifier r = Some c /\ c <> [] /\ identifier_type r = Some (kind_desc w) /\
     validation_info r = validate cfg e c w /\ vtruthy (validation_info r) = true).
Proof. apply pipeline_shape. Qed.


(** X2: with web validation off, [save_bibtex] collects no BibTeX entry
    from results of [pdf2doi_singlefile]: their validation info is never a
    string. *)
Theorem save_bibtex_offline_empty cfg e results :
  webvalidation cfg = false -> Forall (pipeline_result cfg e) results ->
  bibtex_text results = [].
Proof.
  intros Hw H. induction H as [|r rs Hr Hrs IH]; [reflexivity|].
  cbn [bibtex_text]. destruct (pipeline_result_offline cfg e r Hw Hr) as [[-> _]|[-> _]]; exact IH.
Qed.

(** X3: on results of [pdf2doi_singlefile], [save_identifiers] never
    reaches its error branches: the clipboard text is the found identifiers,
    each followed by a newline, in order, and the file text is built. *)
Theorem save_identifiers_pipeline cfg e results :
  Forall (pipeline_result cfg e) results ->
  identifiers_clipboard_text results = Some (concat (map (fun i => i ++ [nl]) (found_ids results))) /\
  exists t, identifiers_file_text results = Some t.
Proof.
  intros H. induction H as [|r rs Hr Hrs [IHc (t & IHf)]]; [split; [reflexivity|eexists; reflexivity]|].
  pose proof (pipeline_result_truthy cfg e r Hr) as Ht.
  destruct Hr as (f & d & tr & d' & Hp).
  apply pipeline_shape in Hp as [_ [(Hi & _ & Hv)|(c & w & Hi & Hc & Hty & _ & Hv)]].
  - cbn [identifiers_clipboard_text identifiers_file_text found_ids flat_map].
    rewrite Ht, Hi. cbn [id_truthy]. split; [exact IHc|eauto].
  - cbn [identifiers_clipboard_text identifiers_file_text]. rewrite Hv.
    unfold identifier_line. rewrite Hi, Hty, IHc, IHf. split; [|eauto].
    unfold found_ids. cbn [flat_map]. rewrite Hi. cbn [app map concat]. rewrite <- app_assoc. reflexivity.
Qed.

(** X4: with web validation off, [pdf2doi_singlefile] does not depend on
    the DOI server or the arXiv API: two environments with the same search
    engine and the same web pages give the same outcome. *)
Theorem pdf2doi_singlefile_offline cfg e e' f d :
  webvalidation cfg = false -> google_search e = google_search e' -> http_get e = http_get e' ->
  pdf2doi_singlefile cfg e f d = pdf2doi_singlefile cfg e' f d.
Proof.
  intros Hw Hg Hh. unfold pdf2doi_singlefile.
  rewrite !(find_identifier_env cfg e e' f _ Hw Hg Hh). reflexivity.
Qed.


(** ** Validation *)

Lemma doi_attempts_text (server : nat -> response) (n : nat) :
  forall sent t k, doi_attempts server n sent = (WText t, k) ->
  exists j st, sent <= j /\ k = S j /\ server j = Resp st t /\ transient st t = false /\
               containsb (s2l "doi not found") (py_lower t) = false.
Proof.
  induction n as [|n IH]; intros sent t k H; cbn [doi_attempts] in H; [discriminate|].
  destruct (server sent) as [st t'|] eqn:Es; [|discriminate].
  destruct (transient st t') eqn:Et.
  - apply IH in H as (j & st' & Hj & Hk & Hs & Ht & Hc). exists j, st'. repeat split; auto; lia.
  - destruct (containsb _ _) eqn:Ec; [discriminate|]. injection H as <- <-.
    exists sent, st. repeat split; auto.
Qed.

Lemma transient_false st t :
  transient st t = false -> st < 500 /\ t <> [] /\
  containsb (s2l "503 service unavailable") (py_lower t) = false.
Proof.
  unfold transient. intros H. apply orb_false_iff in H as [H H3].
  apply orb_false_iff in H as [H1 H2]. apply Nat.leb_gt in H1.
  repeat split; auto. intros ->. discriminate.
Qed.

Lemma doi_attempts_skip (server : nat -> response) (k : nat) :
  forall m sent, (forall n, sent <= n < sent + k ->
                  exists st t, server n = Resp st t /\ transient st t = true) ->
  doi_attempts server (k + m) sent = doi_attempts server m (sent + k).
Proof.
  induction k as [|k IH]; intros m sent H; [rewrite Nat.add_0_r; reflexivity|].
  cbn [Nat.add doi_attempts]. destruct (H sent ltac:(lia)) as (st & t & -> & Ht). rewrite Ht.
  rewrite IH; [f_equal; lia|]. intros n Hn. apply H. lia.
Qed.

(** ** The [arxiv2007_pattern] matcher *)

Lemma cm_true_digit (c : ascii) : cm true is_digit c = is_digit c.
Proof. destruct c as [[] [] [] [] [] [] [] []]; reflexivity. Qed.

Lemma chr_eq_true_dot (c : ascii) : chr_eq true "."%char c = true -> c = "."%char.
Proof. destruct c as [[] [] [] [] [] [] [] []]; vm_compute; congruence. Qed.

Lemma chr_eq_true_v (c : ascii) : chr_eq true "v"%char c = true -> c = "v"%char \/ c = "V"%char.
Proof. destruct c as [[] [] [] [] [] [] [] []]; vm_compute; intros H; first [discriminate | auto]. Qed.

Lemma mt_rep_sound {A} ic p lo hi i w g (k : nat -> pystr -> caps -> option A) x :
  mt ic (Rep p lo hi) i w g k = Some x ->
  exists m, lo <= m <= cap_hi hi (run ic p w) /\ m <= length w /\
            Forall (fun c => cm ic p c = true) (firstn m w) /\ k (i + m) (skipn m w) g = Some x.
Proof.
  intros H. cbn [mt] in H. apply tryd_sound in H as (m & Hm & H).
  exists m. pose proof (run_le ic p w).
  assert (m <= run ic p w) by (destruct hi; simpl in Hm; lia).
  repeat split; try lia; [apply run_firstn; exact H1|exact H].
Qed.

Lemma mt_lit_char_sound {A} ic a i w g (k : nat -> pystr -> caps -> option A) x :
  mt ic (Lit [a]) i w g k = Some x ->
  exists c w', w = c :: w' /\ chr_eq ic a c = true /\ k (S i) w' g = Some x.
Proof.
  intros H. cbn [mt lit_pre] in H. destruct w as [|c w']; [discriminate|].
  destruct (chr_eq ic a c) eqn:Ec; [|discriminate]. exists c, w'.
  rewrite Nat.add_1_r in H. auto.
Qed.

Lemma mt_opt_sound {A} ic r i w g (k : nat -> pystr -> caps -> option A) x :
  mt ic (Opt r) i w g k = Some x -> mt ic r i w g k = Some x \/ k i w g = Some x.
Proof. cbn [mt]. destruct (mt ic r i w g k); auto. Qed.

Lemma mt_eol_sound {A} ic i w g (k : nat -> pystr -> caps -> option A) x :
  mt ic (Eol false) i w g k = Some x -> w = [] \/ w = [nl].
Proof.
  cbn [mt]. intros H. destruct w as [|c [|c' w']]; [auto| |]; unfold at_eol in H.
  - destruct (Ascii.eqb c (ascii_of_nat 10)) eqn:E; [|discriminate]. apply Ascii.eqb_eq in E. subst. auto.
  - rewrite andb_false_r in H. discriminate.
Qed.

Lemma mt_bol0 {A} ic w g (k : nat -> pystr -> caps -> option A) : mt ic Bol 0 w g k = k 0 w g.
Proof. reflexivity. Qed.

Lemma digits_firstn_true (m : nat) (w : pystr) :
  Forall (fun c => cm true is_digit c = true) (firstn m w) -> digits (firstn m w).
Proof.
  intros H. unfold digits. induction H as [|c u Hc Hu IH]; constructor; [|exact IH].
  rewrite <- cm_true_digit. exact Hc.
Qed.

Lemma arxiv2007_shape (s : pystr) : re_match true arxiv2007_pattern s = true -> arxiv_shape s.
Proof.
  unfold re_match, match_at. destruct (mt true arxiv2007_pattern 0 s [] _) as [x|] eqn:E;
    [intros _|discriminate].
  unfold arxiv2007_pattern in E. cbn [seqs] in E.
  rewrite mt_cat_eq, mt_bol0 in E. cbv beta in E.
  rewrite mt_cat_eq in E. unfold arxiv_id_rx in E. rewrite mt_grp_eq in E. cbn [seqs] in E.
  rewrite mt_cat_eq in E.
  apply mt_rep_sound in E as (m1 & Hm1 & Hl1 & Hd1 & E). cbv beta in E.
  rewrite mt_cat_eq in E.
  apply mt_lit_char_sound in E as (dot & w1 & Hw1 & Hdot & E). apply chr_eq_true_dot in Hdot. subst dot.
  apply mt_rep_sound in E as (m2 & Hm2 & Hl2 & Hd2 & E). cbv beta in E.
  rewrite mt_cat_eq in E. unfold version_rx in E.
  apply mt_opt_sound in E as [E|E].
  - rewrite mt_cat_eq in E.
    apply mt_lit_char_sound in E as (v & w2 & Hw2 & Hv & E). apply chr_eq_true_v in Hv.
    apply mt_rep_sound in E as (m3 & Hm3 & Hl3 & Hd3 & E). cbv beta in E.
    apply mt_eol_sound in E.
    exists (firstn m1 s), (firstn m2 w1), (v :: firstn m3 w2), (skipn m3 w2).
    cbn [cap_hi] in Hm1, Hm2, Hm3.
    repeat split.
    + rewrite <- (firstn_skipn m1 s) at 1. rewrite Hw1. f_equal. f_equal.
      rewrite <- (firstn_skipn m2 w1) at 1. rewrite Hw2. f_equal. cbn [app].
      rewrite firstn_skipn. reflexivity.
    + rewrite length_firstn. lia.
    + apply digits_firstn_true. exact Hd1.
    + intros H0. apply (f_equal (@length ascii)) in H0. rewrite length_firstn in H0. simpl in H0. lia.
    + apply digits_firstn_true. exact Hd2.
    + right. exists v, (firstn m3 w2). repeat split; auto.
      * intros H0. apply (f_equal (@length ascii)) in H0. rewrite length_firstn in H0. simpl in H0. lia.
      * apply digits_firstn_true. exact Hd3.
    + exact E.
  - apply mt_eol_sound in E.
    exists (firstn m1 s), (firstn m2 w1), [], (skipn m2 w1).
    cbn [cap_hi] in Hm1, Hm2.
    repeat split.
    + rewrite <- (firstn_skipn m1 s) at 1. rewrite Hw1. f_equal. f_equal.
      cbn [app]. rewrite firstn_skipn. reflexivity.
    + rewrite length_firstn. lia.
    + apply digits_firstn_true. exact Hd1.
    + intros H0. apply (f_equal (@length ascii)) in H0. rewrite length_firstn in H0. simpl in H0. lia.
    + apply digits_firstn_true. exact Hd2.
    + left. reflexivity.
    + exact E.
Qed.

(** X5: a DOI candidate that [validate] accepts has a standard form. With
    web validation off the answer is [True]; with it on, the answer is the
    text of the first non-transient reply of dx.doi.org to that standard
    form, within 10 requests, with a status below 500, non-empty, without
    'doi not found' and not a [@misc] entry. *)
Theorem validate_doi_accepted cfg e c :
  vtruthy (validate cfg e c WDoi) = true ->
  exists doi, standardise_doi c = Some doi /\
   ((webvalidation cfg = false /\ validate cfg e c WDoi = VTrue) \/
    (webvalidation cfg = true /\
     exists j st t, validate cfg e c WDoi = VStr t /\ validate_doi_web e doi = (WText t, S j) /\
       j < 10 /\ doi_server e (s2l "http://dx.doi.org/" ++ doi) j = Resp st t /\
       st < 500 /\ t <> [] /\ containsb (s2l "doi not found") (py_lower t) = false /\
       firstn 5 (py_strip t) <> s2l "@misc")).
Proof.
  unfold validate. destruct c as [|c0 c']; [discriminate|].
  destruct (standardise_doi (c0 :: c')) as [doi|]; [|discriminate].
  intros H. exists doi. split; [reflexivity|].
  destruct (webvalidation cfg) eqn:Hw; [right|left; auto].
  split; [reflexivity|].
  destruct (validate_doi_web e doi) as [wr k] eqn:Ev. cbn [fst] in H |- *.
  destruct wr as [t| | |]; try discriminate.
  destruct (list_eq_dec ascii_dec (firstn 5 (py_strip t)) (s2l "@misc")) as [Hm|Hm]; [discriminate|].
  destruct (vtruthy (VStr t)) eqn:Ht; [|discriminate].
  pose proof (doi_attempts_bound (doi_server e (s2l "http://dx.doi.org/" ++ doi)) 10 0) as Hb.
  unfold validate_doi_web in Ev. rewrite Ev in Hb. cbn [snd] in Hb.
  apply doi_attempts_text in Ev as (j & st & _ & -> & Hs & Htr & Hc).
  apply transient_false in Htr as (Hst & Hnil & _).
  exists j, st, t. repeat split; auto; lia.
Qed.

(** X6: when the first [k] replies of dx.doi.org are transient and reply
    [k] (with [k < 10]) is an exception or a non-transient reply,
    [validate_doi_web] sends exactly [k+1] requests and its outcome is
    decided by reply [k] alone: -1 for an exception, [None] when the text
    says 'doi not found', else the text. *)
Theorem validate_doi_web_first_answer e doi k :
  k < 10 ->
  (forall n, n < k -> exists st t, doi_server e (s2l "http://dx.doi.org/" ++ doi) n = Resp st t /\
                                   transient st t = true) ->
  (doi_server e (s2l "http://dx.doi.org/" ++ doi) k = ReqError \/
   exists st t, doi_server e (s2l "http://dx.doi.org/" ++ doi) k = Resp st t /\ transient st t = false) ->
  validate_doi_web e doi =
    (match doi_server e (s2l "http://dx.doi.org/" ++ doi) k with
     | ReqError => WMinus1
     | Resp _ t => if containsb (s2l "doi not found") (py_lower t) then WPyNone else WText t
     end, S k).
Proof.
  intros Hk Hpre Hk'. unfold validate_doi_web.
  replace 10 with (k + S (9 - k)) by lia.
  rewrite doi_attempts_skip by (intros n Hn; apply Hpre; lia).
  cbn [Nat.add doi_attempts].
  destruct Hk' as [->|(st & t & -> & Ht)]; [reflexivity|]. rewrite Ht.
  destruct (containsb _ _); reflexivity.
Qed.

(** X7: an arXiv candidate that [validate] accepts has the shape of a
    post-2007 arXiv ID (four digits, a dot, digits, an optional version).
    With web validation off the answer is [True]; with it on, it is the
    first entry of the arXiv API feed for that ID, which is non-empty. *)
Theorem validate_arxiv_accepted cfg e c :
  vtruthy (validate cfg e c WArxiv) = true ->
  arxiv_shape c /\
  ((webvalidation cfg = false /\ validate cfg e c WArxiv = VTrue) \/
   (webvalidation cfg = true /\
    exists it its, arxiv_feed e (s2l "http://export.arxiv.org/api/query?search_query=id:" ++ c) =
                   Feed (it :: its) /\ it <> [] /\ validate cfg e c WArxiv = VEntry it)).
Proof.
  unfold validate. destruct c as [|c0 c']; [discriminate|].
  destruct (re_match true arxiv2007_pattern (c0 :: c')) eqn:Hm; [|discriminate].
  intros H. split; [apply arxiv2007_shape; exact Hm|].
  destruct (webvalidation cfg) eqn:Hw; [right|left; auto]. split; [reflexivity|].
  unfold validate_arxivID_web in *.
  destruct (arxiv_feed e _) as [[|it its]|]; try discriminate.
  destruct (0 <? length it) eqn:Hl; [|discriminate].
  destruct (vtruthy (VEntry it)) eqn:Ht; [|discriminate].
  exists it, its. repeat split; auto. intros ->. discriminate.
Qed.

(** X8: every DOI [standardise_doi] returns is in lower case and made of
    a ['10.'] registrant and a suffix of the DOI pattern. *)
Theorem standardise_doi_lowercase x y :
  standardise_doi x = Some y ->
  py_lower y = y /\ exists reg suf, y = canon reg suf /\ registrant_shape reg /\ suffix_shape suf.
Proof.
  intros H. apply standardise_doi_canon in H as (reg & suf & -> & Hr & Hs).
  split; [apply py_lower_canon; assumption|]. eauto.
Qed.


Lemma first_valid_none fv w l :
  first_valid fv w l = None <-> forall c, In c l -> vtruthy (fv c w) = false.
Proof.
  induction l as [|c l IH]; cbn [first_valid In]; [split; [contradiction|reflexivity]|].
  destruct (vtruthy (fv c w)) eqn:E; split.
  - discriminate.
  - intros H. rewrite (H c (or_introl eq_refl)) in E. discriminate.
  - intros H c' [<-|Hin]; [exact E|]. apply IH; assumption.
  - intros H. apply IH. intros c' Hin. apply H. right. exact Hin.
Qed.

Lemma assoc_del_key k key l :
  assoc k (del_key key l) = if list_eq_dec ascii_dec k key then None else assoc k l.
Proof.
  induction l as [|[k' v] l IH]; cbn [del_key filter assoc].
  - destruct (list_eq_dec ascii_dec k key); reflexivity.
  - unfold del_key in IH. cbn [fst].
    destruct (list_eq_dec ascii_dec key k') as [<-|Hne].
    + rewrite IH. destruct (list_eq_dec ascii_dec k key); reflexivity.
    + cbn [assoc]. rewrite IH.
      destruct (list_eq_dec ascii_dec k k') as [->|]; [|reflexivity].
      destruct (list_eq_dec ascii_dec k' key); [congruence|reflexivity].
Qed.

Lemma assoc_in k v l : In (k, v) l -> assoc k l <> None.
Proof.
  induction l as [|[k' v'] l IH]; cbn [In assoc]; [contradiction|].
  intros [H|H]; destruct (list_eq_dec ascii_dec k k'); try discriminate; [congruence|].
  apply IH. exact H.
Qed.

Lemma info_loop_checked fv (Keys : list pystr) :
  forall info r checked, info_loop fv Keys info = (r, checked) ->
  NoDup checked /\
  (forall k, In k checked -> assoc k info <> None /\ mem_str (py_lower k) KeysNotToUse = false) /\
  (id_truthy (f_id r) = false -> forall k, In k Keys -> assoc k info <> None ->
     mem_str (py_lower k) KeysNotToUse = false -> In k checked).
Proof.
  induction Keys as [|key Keys IH]; intros info r checked H; cbn [info_loop] in H.
  - injection H as <- <-. split; [constructor|]. split; [intros k []|]. intros _ k [].
  - destruct (assoc key info) as [value|] eqn:Ea.
    + destruct (mem_str (py_lower key) KeysNotToUse) eqn:Ex; cbn [negb] in H.
      * apply IH in H as (Hn & Hc & Hall). split; [exact Hn|]. split; [exact Hc|].
        intros Hr k [<-|Hk] Hak Hxk; [congruence|]. apply Hall; assumption.
      * destruct (id_truthy (f_id (fit fv [PStr value]))) eqn:Ef.
        -- assert (r = fit fv [PStr value] /\ checked = [key]) as [-> ->] by (split; congruence).
           split; [repeat constructor; intros []|]. split.
           ++ intros k [<-|[]]. rewrite Ea. split; [discriminate|exact Ex].
           ++ rewrite Ef. discriminate.
        -- destruct (info_loop fv Keys (del_key key info)) as [r' checked'] eqn:E.
           injection H as <- <-. apply IH in E as (Hn & Hc & Hall).
           split; [|split].
           ++ constructor; [|exact Hn]. intros Hin. apply Hc in Hin as [Hin _].
              rewrite assoc_del_key in Hin. destruct (list_eq_dec ascii_dec key key); congruence.
           ++ intros k [<-|Hk]; [rewrite Ea; split; [discriminate|exact Ex]|].
              apply Hc in Hk as [Hk Hxk]. rewrite assoc_del_key in Hk.
              destruct (list_eq_dec ascii_dec k key); [congruence|]. auto.
           ++ intros Hr k Hk Hak Hxk. destruct (list_eq_dec ascii_dec k key) as [->|Hne];
                [left; reflexivity|right].
              destruct Hk as [->|Hk]; [congruence|].
              apply Hall; auto. rewrite assoc_del_key.
              destruct (list_eq_dec ascii_dec k key); [congruence|exact Hak].
    + apply IH in H as (Hn & Hc & Hall). split; [exact Hn|]. split; [exact Hc|].
      intros Hr k [<-|Hk] Hak Hxk; [congruence|]. apply Hall; assumption.
Qed.

Lemma ins_len_perm x l : Permutation (x :: l) (ins_len x l).
Proof.
  induction l as [|y l IH]; cbn [ins_len]; [reflexivity|].
  destruct (length y <? length x); [reflexivity|].
  rewrite perm_swap. constructor. exact IH.
Qed.

Lemma ins_len_sorted x l : Sorted longer_eq l -> Sorted longer_eq (ins_len x l).
Proof.
  induction l as [|y l IH]; intros H; cbn [ins_len]; [repeat constructor|].
  destruct (length y <? length x) eqn:E.
  - constructor; [exact H|]. constructor. apply Nat.ltb_lt in E. unfold longer_eq. lia.
  - apply Nat.ltb_ge in E. apply Sorted_inv in H as [Hl Hhd].
    constructor; [apply IH; exact Hl|].
    destruct l as [|z l]; cbn [ins_len].
    + constructor. unfold longer_eq. exact E.
    + destruct (length z <? length x); constructor; unfold longer_eq; [exact E|].
      inversion Hhd. assumption.
Qed.

Lemma longer_eq_trans : forall x y z, longer_eq x y -> longer_eq y z -> longer_eq x z.
Proof. intros x y z. unfold longer_eq. lia. Qed.

Lemma filter_none {A} (f : A -> bool) l : (forall z, In z l -> f z = false) -> filter f l = [].
Proof.
  induction l as [|a l IH]; intros H; cbn [filter]; [reflexivity|].
  rewrite (H a (or_introl eq_refl)). apply IH. intros z Hz. apply H. right. exact Hz.
Qed.

Lemma ins_len_filter x l n :
  Sorted longer_eq l ->
  filter (fun z => length z =? n) (ins_len x l) =
  filter (fun z => length z =? n) l ++ (if length x =? n then [x] else []).
Proof.
  induction l as [|y l IH]; intros H; cbn [ins_len]; [reflexivity|].
  destruct (length y <? length x) eqn:E.
  - apply Nat.ltb_lt in E.
    assert (Hall : forall z, In z l -> length z <= length y).
    { intros z Hz. apply Sorted_extends in H; [|exact longer_eq_trans].
      rewrite Forall_forall in H. apply H. exact Hz. }
    cbn [filter]. destruct (length x =? n) eqn:Ex.
    + apply Nat.eqb_eq in Ex. subst n.
      replace (length y =? length x) with false by (symmetry; apply Nat.eqb_neq; lia).
      rewrite (filter_none _ l); [reflexivity|].
      intros z Hz. apply Nat.eqb_neq. apply Hall in Hz. lia.
    + rewrite app_nil_r. reflexivity.
  - apply Sorted_inv in H as [Hl _]. cbn [filter]. rewrite IH by exact Hl.
    destruct (length y =? n); reflexivity.
Qed.

Lemma fold_ins_len (p : list pystr) :
  forall acc, Sorted longer_eq acc ->
  let r := fold_left (fun acc x => ins_len x acc) p acc in
  Sorted longer_eq r /\ Permutation (acc ++ p) r /\
  forall n, filter (fun z => length z =? n) r =
            filter (fun z => length z =? n) acc ++ filter (fun z => length z =? n) p.
Proof.
  induction p as [|x p IH]; intros acc Hs; cbn [fold_left].
  - rewrite app_nil_r. split; [exact Hs|]. split; [reflexivity|]. intros n. rewrite app_nil_r. reflexivity.
  - destruct (IH (ins_len x acc) (ins_len_sorted x acc Hs)) as (H1 & H2 & H3).
    split; [exact H1|]. split.
    + rewrite <- H2. rewrite <- (ins_len_perm x acc).
      rewrite <- Permutation_middle. reflexivity.
    + intros n. rewrite H3, ins_len_filter by exact Hs. cbn [filter].
      rewrite <- app_assoc. destruct (length x =? n); reflexivity.
Qed.

Lemma search_loop_http e e' fv urls :
  http_get e = http_get e' -> search_loop e fv urls = search_loop e' fv urls.
Proof.
  intros Hh. induction urls as [|[url|] urls IH]; cbn [search_loop]; try reflexivity.
  rewrite Hh. destruct (http_get e' url); [rewrite IH|]; reflexivity.
Qed.

Definition clean_charb (c : ascii) : bool :=
  (code c <=? 127) && negb (Ascii.eqb c nl) && negb (Ascii.eqb c (ascii_of_nat 13))
  && negb (Ascii.eqb c (ascii_of_nat 9)).

Lemma clean_char_clean (c : ascii) : clean_charb (clean_char c) = true.
Proof. destruct c as [[] [] [] [] [] [] [] []]; reflexivity. Qed.

Lemma clean_charb_sound (c : ascii) :
  clean_charb c = true ->
  code c <= 127 /\ c <> nl /\ c <> ascii_of_nat 13 /\ c <> ascii_of_nat 9.
Proof.
  unfold clean_charb. intros H.
  repeat match type of H with (_ && _) = true => apply andb_prop in H as [H ?] end.
  apply Nat.leb_le in H. repeat split; [exact H| | |];
    intros ->; match goal with Hx : negb (Ascii.eqb ?a ?a) = true |- _ =>
                 rewrite Ascii.eqb_refl in Hx; discriminate end.
Qed.

Lemma clean_query_firstn (N : nat) (s : pystr) : clean_query N (firstn N (map clean_char s)).
Proof.
  split; [rewrite length_firstn; lia|].
  revert N. induction s as [|c s IH]; intros [|N]; cbn [map firstn]; try constructor.
  - apply clean_charb_sound, clean_char_clean.
  - apply IH.
Qed.

(** X9: [find_identifier_in_text] finds nothing exactly when no DOI
    candidate and no arXiv candidate of any of the texts validates. *)
Theorem find_identifier_in_text_none fv texts :
  f_id (find_identifier_in_text fv texts) = None <->
  forall t, In t texts ->
    (forall c, In c (candidates doi_regexp t) -> vtruthy (fv c WDoi) = false) /\
    (forall c, In c (candidates arxiv_regexp t) -> vtruthy (fv c WArxiv) = false).
Proof.
  induction texts as [|t ts IH]; [split; [intros _ t []|reflexivity]|].
  rewrite fit_cons.
  destruct (first_valid fv WDoi (candidates doi_regexp t)) as [[c v]|] eqn:E1.
  - split; [discriminate|]. intros H. destruct (H t (or_introl eq_refl)) as [Hd _].
    apply first_valid_none in Hd. congruence.
  - destruct (first_valid fv WArxiv (candidates arxiv_regexp t)) as [[c v]|] eqn:E2.
    + split; [discriminate|]. intros H. destruct (H t (or_introl eq_refl)) as [_ Ha].
      apply first_valid_none in Ha. congruence.
    + rewrite IH. split.
      * intros H t' [<-|Ht']; [|apply H; exact Ht'].
        split; apply first_valid_none; assumption.
      * intros H t' Ht'. apply H. right. exact Ht'.
Qed.

(** X10: the metadata search checks no key twice. Every key it checks is
    a key of the document information, not one of [KeysNotToUse]. When it
    finds nothing, it has checked every key of the information that is not
    in [KeysNotToUse]. *)
Theorem pdf_info_search_keys fv d keys r checked :
  pdf_info_search fv d keys = (r, checked) ->
  NoDup checked /\
  (forall k, In k checked -> exists info, doc_info d = Some info /\ assoc k info <> None /\
                                          mem_str (py_lower k) KeysNotToUse = false) /\
  (id_truthy (f_id r) = false -> forall info k v, doc_info d = Some info -> In (k, v) info ->
     mem_str (py_lower k) KeysNotToUse = false -> In k checked).
Proof.
  unfold pdf_info_search. destruct (doc_info d) as [info|] eqn:Ed.
  - intros H. apply info_loop_checked in H as (Hn & Hc & Hall).
    split; [exact Hn|]. split.
    + intros k Hk. exists info. split; [reflexivity|]. apply Hc. exact Hk.
    + intros Hr info' k v Hi Hin Hx. injection Hi as <-. apply Hall; auto.
      * apply in_or_app. right. apply in_map_iff. exists (k, v). auto.
      * eapply assoc_in. exact Hin.
  - intros H. injection H as <- <-. split; [constructor|]. split; [intros k []|].
    intros _ info k v Hi. discriminate.
Qed.



(** X12: the title sort of [find_identifier_by_googling_title] reorders
    the titles by decreasing length and keeps the order of titles of equal
    length. *)
Theorem sort_len_desc_spec l :
  Permutation l (sort_len_desc l) /\ Sorted longer_eq (sort_len_desc l) /\
  forall n, filter (fun z => length z =? n) (sort_len_desc l) = filter (fun z => length z =? n) l.
Proof.
  destruct (fold_ins_len l [] (Sorted_nil _)) as (H1 & H2 & H3).
  unfold sort_len_desc. split; [exact H2|]. split; [exact H1|]. exact H3.
Qed.

(** X13: the web search stops at the first result whose generator raises
    or whose page request raises: the results after it are never looked
    at. *)
Theorem search_loop_stops e fv pre x rest rest' :
  search_stop e x -> search_loop e fv (pre ++ x :: rest) = search_loop e fv (pre ++ x :: rest').
Proof.
  intros Hx. induction pre as [|[url|] pre IH]; cbn [app search_loop].
  - destruct Hx as [->|(u & -> & Hu)]; [reflexivity|]. cbn [search_loop].
    rewrite Hu. reflexivity.
  - rewrite IH. reflexivity.
  - reflexivity.
Qed.

(** X14: the content search, called with [numb_results] and
    [numb_characters] (through [find_identifier], the default arguments
    bound when [finders] was imported), only sends the search engine
    queries of at most [numb_characters] ASCII characters without
    newlines, carriage returns or tabs, each asking for [numb_results]
    results: a search engine that differs only on other requests gives the
    same outcome. *)
Theorem first_N_queries_clean cfg e e' fv d f numb_results numb_characters :
  (forall q, clean_query numb_characters q ->
     google_search e q numb_results = google_search e' q numb_results) ->
  http_get e = http_get e' ->
  find_identifier_by_googling_first_N_characters_in_pdf cfg e fv d f numb_results numb_characters =
  find_identifier_by_googling_first_N_characters_in_pdf cfg e' fv d f numb_results numb_characters.
Proof.
  intros Hg Hh. unfold find_identifier_by_googling_first_N_characters_in_pdf.
  destruct (negb (websearch cfg)); [reflexivity|].
  induction reader_libraries as [|rd readers IH]; cbn [first_N_loop]; [reflexivity|].
  destruct (get_pdf_text d f rd) as [[[|p ps]|]|x]; cbn [rbind]; try exact IH; [|reflexivity].
  destruct (map clean_char (concat (p :: ps))) as [|c t] eqn:Em; [exact IH|].
  unfold find_identifier_in_google_search. rewrite Hg by (rewrite <- Em; apply clean_query_firstn).
  rewrite (search_loop_http e e' fv _ Hh), IH. reflexivity.
Qed.


(** ** [config.py] *)

Lemma plookup_pset k name v ps :
  plookup k (pset name v ps) =
  match plookup k ps with
  | Some w => Some (if list_eq_dec ascii_dec k name then v else w)
  | None => None
  end.
Proof.
  induction ps as [|[k' w] ps IH]; cbn [pset map plookup]; [reflexivity|].
  unfold pset in IH. cbn [fst].
  destruct (list_eq_dec ascii_dec k' name) as [->|Hne]; cbn [plookup].
  - destruct (list_eq_dec ascii_dec k name); [reflexivity|exact IH].
  - rewrite IH. destruct (list_eq_dec ascii_dec k k') as [->|]; [|reflexivity].
    destruct (list_eq_dec ascii_dec k' name); [congruence|reflexivity].
Qed.

Lemma pset_keys name v ps : map fst (pset name v ps) = map fst ps.
Proof.
  induction ps as [|[k w] ps IH]; cbn [pset map]; [reflexivity|].
  unfold pset in IH. rewrite IH. cbn [fst].
  destruct (list_eq_dec ascii_dec k name) as [->|]; reflexivity.
Qed.


















(** X15: [config.set] on an existing parameter stores the value, so that
    [config.get] returns it. The other parameters and the list of names are
    unchanged. Setting ['verbose'] sets the logger level to INFO when the
    value is truthy and to CRITICAL otherwise. *)
Theorem config_set_get st name v st' :
  config_set st name v = Ok st' ->
  config_get (sparams st') name = Ok v /\
  (forall n, n <> name -> config_get (sparams st') n = config_get (sparams st) n) /\
  map fst (sparams st') = map fst (sparams st) /\
  loglevel st' = (if list_eq_dec ascii_dec name (s2l "verbose")
                  then if ctruthy v then INFO else CRITICAL else loglevel st).
Proof.
  unfold config_set. destruct (plookup name (sparams st)) as [w|] eqn:E; [|discriminate].
  intros H. injection H as <-. cbn [sparams loglevel]. split; [|split; [|split]].
  - unfold config_get. rewrite plookup_pset, E.
    destruct (list_eq_dec ascii_dec name name); [reflexivity|congruence].
  - intros n Hn. unfold config_get. rewrite plookup_pset.
    destruct (plookup n (sparams st)); [|reflexivity].
    destruct (list_eq_dec ascii_dec n name); [congruence|reflexivity].
  - apply pset_keys.
  - reflexivity.
Qed.




Lemma assoc_app k l1 l2 :
  assoc k (l1 ++ l2) = match assoc k l1 with Some v => Some v | None => assoc k l2 end.
Proof.
  induction l1 as [|[k' w] l1 IH]; cbn [app assoc]; [reflexivity|].
  destruct (list_eq_dec ascii_dec k k'); [reflexivity|exact IH].
Qed.

Lemma assoc_notin k l : ~ In k (map fst l) -> assoc k l = None.
Proof.
  induction l as [|[k' w] l IH]; cbn [map fst In assoc]; [reflexivity|].
  intros H. destruct (list_eq_dec ascii_dec k k'); [subst; tauto|]. apply IH. tauto.
Qed.

Lemma assoc_map_set_other k info k' v' :
  k <> k' ->
  assoc k (map (fun kv' => if list_eq_dec ascii_dec (fst kv') k' then (k', v') else kv') info) =
  assoc k info.
Proof.
  intros Hk. induction info as [|[k0 w0] info IH]; cbn [map assoc fst]; [reflexivity|].
  destruct (list_eq_dec ascii_dec k0 k') as [->|Hne]; cbn [assoc].
  - destruct (list_eq_dec ascii_dec k k'); [congruence|exact IH].
  - rewrite IH. reflexivity.
Qed.

Lemma assoc_map_set_same info k' v' :
  assoc k' info <> None ->
  assoc k' (map (fun kv' => if list_eq_dec ascii_dec (fst kv') k' then (k', v') else kv') info) =
  Some v'.
Proof.
  induction info as [|[k0 w0] info IH]; cbn [map assoc fst]; intros H; [congruence|].
  destruct (list_eq_dec ascii_dec k0 k') as [->|Hne]; cbn [assoc].
  - destruct (list_eq_dec ascii_dec k' k'); congruence.
  - destruct (list_eq_dec ascii_dec k' k0); [congruence|]. apply IH. exact H.
Qed.

Lemma assoc_info_set k info k' v' :
  assoc k (info_set info (k', v')) = if list_eq_dec ascii_dec k k' then Some v' else assoc k info.
Proof.
  unfold info_set. cbn [fst]. destruct (assoc k' info) as [w|] eqn:E.
  - destruct (list_eq_dec ascii_dec k k') as [->|Hne].
    + apply assoc_map_set_same. congruence.
    + apply assoc_map_set_other. exact Hne.
  - rewrite assoc_app. cbn [assoc].
    destruct (list_eq_dec ascii_dec k k') as [->|Hne]; [rewrite E; reflexivity|].
    destruct (assoc k info); reflexivity.
Qed.

Lemma assoc_info_update k (upd : list (pystr * pystr)) :
  forall base, NoDup (map fst upd) ->
  assoc k (info_update base upd) = match assoc k upd with Some v => Some v | None => assoc k base end.
Proof.
  unfold info_update. induction upd as [|[k' v'] upd IH]; intros base Hn; cbn [fold_left assoc];
    [reflexivity|].
  cbn [map fst] in Hn. apply NoDup_cons_iff in Hn as [Hk Hn].
  rewrite IH by exact Hn. rewrite assoc_info_set.
  destruct (list_eq_dec ascii_dec k k') as [->|Hne].
  - rewrite (assoc_notin k' upd Hk). reflexivity.
  - reflexivity.
Qed.

Lemma written_info_identifier old identifier :
  assoc (s2l "/identifier") (written_info old identifier) = Some identifier.
Proof.
  unfold written_info. rewrite assoc_info_set.
  destruct (list_eq_dec ascii_dec _ _); [reflexivity|congruence].
Qed.

Lemma written_info_other old identifier k :
  k <> s2l "/identifier" -> NoDup (map fst (match old with Some i => i | None => [] end)) ->
  assoc k (written_info old identifier) =
  match assoc k (match old with Some i => i | None => [] end) with
  | Some v => Some v
  | None => if list_eq_dec ascii_dec k (s2l "/Producer") then Some (s2l "PyPDF2") else None
  end.
Proof.
  intros Hk Hn. unfold written_info. rewrite assoc_info_set.
  destruct (list_eq_dec ascii_dec k _) as [|_]; [congruence|].
  rewrite assoc_info_update by exact Hn.
  destruct (assoc k _); [reflexivity|]. cbn [assoc].
  destruct (list_eq_dec ascii_dec k (s2l "/Producer")); reflexivity.
Qed.

Lemma fs_doc_update fs f d p :
  fs_doc (fs_update fs f d) p = if list_eq_dec ascii_dec p f then Some d else fs_doc fs p.
Proof. reflexivity. Qed.

Lemma write_all_ok identifier files :
  forall fs fs', NoDup files -> write_all identifier files fs = (ARNone, fs') ->
  (forall p, ~ In p files -> fs_doc fs' p = fs_doc fs p) /\
  (forall p, In p files -> exists d0, fs_doc fs p = Some d0 /\
                                      fs_doc fs' p = Some (doc_written identifier d0)).
Proof.
  induction files as [|f files IH]; intros fs fs' Hn H; cbn [write_all] in H.
  - injection H as <-. split; [reflexivity|intros p []].
  - apply NoDup_cons_iff in Hn as [Hf Hn].
    unfold write_one in H. destruct (fs_doc fs f) as [d0|] eqn:Ed; [|discriminate].
    destruct (negb (fs_pypdf_ok fs f)); [discriminate|].
    destruct (negb (fs_write_ok fs f)); [discriminate|].
    apply IH in H as [Hout Hin]; [|exact Hn]. split.
    + intros p Hp. rewrite Hout by (intros Hx; apply Hp; right; exact Hx).
      rewrite fs_doc_update. destruct (list_eq_dec ascii_dec p f); [|reflexivity].
      exfalso. apply Hp. left. congruence.
    + intros p [->|Hp].
      * exists d0. split; [exact Ed|]. rewrite Hout by exact Hf. rewrite fs_doc_update.
        destruct (list_eq_dec ascii_dec p p); [reflexivity|congruence].
      * destruct (Hin p Hp) as (d1 & Hd1 & Hd1'). rewrite fs_doc_update in Hd1.
        destruct (list_eq_dec ascii_dec p f) as [->|]; [contradiction|].
        exists d1. auto.
Qed.

Lemma write_all_fail identifier files :
  forall fs fs' msg, NoDup files -> write_all identifier files fs = (ARFalse msg, fs') ->
  exists pre f post, files = pre ++ f :: post /\
    (forall p, ~ In p pre -> fs_doc fs' p = fs_doc fs p) /\
    (forall p, In p pre -> exists d0, fs_doc fs p = Some d0 /\
                                      fs_doc fs' p = Some (doc_written identifier d0)).
Proof.
  induction files as [|f files IH]; intros fs fs' msg Hn H; cbn [write_all] in H; [discriminate|].
  apply NoDup_cons_iff in Hn as [Hf Hn].
  destruct (write_one identifier f fs) as [[m|] fs1] eqn:Ew.
  - injection H as <- <-. exists [], f, files. split; [reflexivity|].
    unfold write_one in Ew.
    split; [|intros p []].
    destruct (fs_doc fs f); [|injection Ew as _ <-; reflexivity].
    destruct (negb (fs_pypdf_ok fs f)); [injection Ew as _ <-; reflexivity|].
    destruct (negb (fs_write_ok fs f)); [injection Ew as _ <-; reflexivity|discriminate].
  - unfold write_one in Ew. destruct (fs_doc fs f) as [d0|] eqn:Ed; [|discriminate].
    destruct (negb (fs_pypdf_ok fs f)); [discriminate|].
    destruct (negb (fs_write_ok fs f)); [discriminate|].
    injection Ew as <-.
    destruct (IH _ _ _ Hn H) as (pre & g & post & -> & Hout & Hin).
    exists (f :: pre), g, post. split; [reflexivity|]. split.
    + intros p Hp. rewrite Hout by (intros Hx; apply Hp; right; exact Hx).
      rewrite fs_doc_update. destruct (list_eq_dec ascii_dec p f); [|reflexivity].
      exfalso. apply Hp. left. congruence.
    + intros p [->|Hp].
      * exists d0. split; [exact Ed|]. rewrite Hout.
        -- rewrite fs_doc_update. destruct (list_eq_dec ascii_dec p p); [reflexivity|congruence].
        -- intros Hx. apply Hf. apply in_or_app. left. exact Hx.
      * destruct (Hin p Hp) as (d1 & Hd1 & Hd1'). rewrite fs_doc_update in Hd1.
        destruct (list_eq_dec ascii_dec p f) as [->|]; [|exists d1; auto].
        exfalso. apply Hf. apply in_or_app. left. exact Hp.
Qed.

Lemma add_identifier_to_files_write_all sep target identifier fs :
  add_identifier_to_files sep target identifier fs =
  write_all identifier (target_files sep target fs) fs.
Proof.
  unfold add_identifier_to_files, target_files.
  destruct (fs_isdir fs target); [|reflexivity].
  destruct (pdf_files_of (fs_listdir fs target)); reflexivity.
Qed.

(** X18: when [add_found_identifier_to_metadata] returns [None], every
    target file (the [.pdf] files of a folder, or the single file) held a
    document and now holds it with new information. In it, ['/identifier']
    is the identifier; every other key of the old information keeps its
    value, and ['/Producer'] is ['PyPDF2'] when the old information had
    none. Every other path is unchanged. *)
Theorem add_identifier_to_files_ok sep target identifier fs fs' :
  NoDup (target_files sep target fs) ->
  add_identifier_to_files sep target identifier fs = (ARNone, fs') ->
  (forall p, ~ In p (target_files sep target fs) -> fs_doc fs' p = fs_doc fs p) /\
  (forall p, In p (target_files sep target fs) ->
     exists d0, fs_doc fs p = Some d0 /\ fs_doc fs' p = Some (doc_written identifier d0) /\
       assoc (s2l "/identifier") (written_info (doc_info d0) identifier) = Some identifier /\
       (forall k, k <> s2l "/identifier" ->
          NoDup (map fst (match doc_info d0 with Some i => i | None => [] end)) ->
          assoc k (written_info (doc_info d0) identifier) =
          match assoc k (match doc_info d0 with Some i => i | None => [] end) with
          | Some v => Some v
          | None => if list_eq_dec ascii_dec k (s2l "/Producer") then Some (s2l "PyPDF2") else None
          end)).
Proof.
  intros Hn H. rewrite add_identifier_to_files_write_all in H.
  apply write_all_ok in H as [Hout Hin]; [|exact Hn]. split; [exact Hout|].
  intros p Hp. destruct (Hin p Hp) as (d0 & H0 & H1). exists d0.
  split; [exact H0|]. split; [exact H1|]. split; [apply written_info_identifier|].
  intros k Hk Hnd. apply written_info_other; assumption.
Qed.

(** X19: when [add_found_identifier_to_metadata] returns a failure, it
    stopped at one target file. The target files before it were written as
    on success; every other path is unchanged. *)
Theorem add_identifier_to_files_fail sep target identifier fs fs' msg :
  NoDup (target_files sep target fs) ->
  add_identifier_to_files sep target identifier fs = (ARFalse msg, fs') ->
  exists pre f post, target_files sep target fs = pre ++ f :: post /\
    (forall p, ~ In p pre -> fs_doc fs' p = fs_doc fs p) /\
    (forall p, In p pre -> exists d0, fs_doc fs p = Some d0 /\
                                      fs_doc fs' p = Some (doc_written identifier d0)).
Proof.
  intros Hn H. rewrite add_identifier_to_files_write_all in H.
  eapply write_all_fail; eassumption.
Qed.

(** ** Runs of these properties on concrete inputs *)

Lemma pipeline_result_arxiv_run :
  pipeline_result cfg_nwv env0
    (Resolution (Some (s2l "2407.03393")) (Some "arxiv ID"%string) (s2l "/tmp/2407.03393.pdf")
                filename VTrue).
Proof.
  exists (FObj (s2l "/tmp/2407.03393.pdf")), doc_empty, [document_infos; filename], doc_empty.
  vm_compute. reflexivity.
Qed.

Lemma pipeline_result_epr_run :
  pipeline_result cfg_nwv env0
    (Resolution (Some (s2l "10.1103/PhysRev.47.777")) (Some "DOI"%string) (s2l "/tmp/x.pdf")
                document_text VTrue).
Proof.
  exists (FObj (s2l "/tmp/x.pdf")), doc_epr, [document_infos; filename; document_text], doc_epr.
  vm_compute. reflexivity.
Qed.

Lemma pdf2doi_singlefile_result_shape_witness :
  exists r tr d',
    pdf2doi_singlefile cfg_nwv env0 (FObj (s2l "/tmp/2407.03393.pdf")) doc_empty = Ok ((r, tr), d') /\
    FObj (s2l "/tmp/2407.03393.pdf") = FObj (path r) /\
    exists c w, identifier r = Some c /\ c <> [] /\ identifier_type r = Some (kind_desc w) /\
      validation_info r = validate cfg_nwv env0 c w /\ vtruthy (validation_info r) = true.
Proof.
  assert (H : pdf2doi_singlefile cfg_nwv env0 (FObj (s2l "/tmp/2407.03393.pdf")) doc_empty =
    Ok ((Resolution (Some (s2l "2407.03393")) (Some "arxiv ID"%string) (s2l "/tmp/2407.03393.pdf")
           filename VTrue, [document_infos; filename]), doc_empty)) by (vm_compute; reflexivity).
  destruct (pdf2doi_singlefile_result_shape _ _ _ _ _ _ _ H) as [Hf [Hn|Hs]].
  - destruct Hn as [Hn _]. discriminate Hn.
  - eexists _, _, _. split; [exact H|]. split; [exact Hf|exact Hs].
Defined.

Lemma save_bibtex_offline_empty_witness :
  webvalidation cfg_nwv = false /\
  bibtex_text [Resolution (Some (s2l "2407.03393")) (Some "arxiv ID"%string) (s2l "/tmp/2407.03393.pdf")
                          filename VTrue;
               Resolution (Some (s2l "10.1103/PhysRev.47.777")) (Some "DOI"%string) (s2l "/tmp/x.pdf")
                          document_text VTrue] = [].
Proof.
  split; [reflexivity|].
  apply (save_bibtex_offline_empty cfg_nwv env0); [reflexivity|].
  constructor; [exact pipeline_result_arxiv_run|].
  constructor; [exact pipeline_result_epr_run|constructor].
Defined.

Lemma save_identifiers_pipeline_witness :
  identifiers_clipboard_text
    [Resolution (Some (s2l "2407.03393")) (Some "arxiv ID"%string) (s2l "/tmp/2407.03393.pdf")
                filename VTrue;
     Resolution (Some (s2l "10.1103/PhysRev.47.777")) (Some "DOI"%string) (s2l "/tmp/x.pdf")
                document_text VTrue] =
  Some (s2l "2407.03393" ++ [nl] ++ s2l "10.1103/PhysRev.47.777" ++ [nl]).
Proof.
  refine (eq_trans (proj1 (save_identifiers_pipeline cfg_nwv env0 _ _)) _).
  - constructor; [exact pipeline_result_arxiv_run|].
    constructor; [exact pipeline_result_epr_run|constructor].
  - vm_compute. reflexivity.
Defined.

Lemma pdf2doi_singlefile_offline_witness :
  pdf2doi_singlefile cfg_nwv env0 (FObj (s2l "/tmp/x.pdf")) doc_epr =
  pdf2doi_singlefile cfg_nwv env_ok (FObj (s2l "/tmp/x.pdf")) doc_epr /\
  validate default_config env0 (s2l "10.1103/PhysRev.47.777") WDoi <>
  validate default_config env_ok (s2l "10.1103/PhysRev.47.777") WDoi.
Proof.
  split.
  - apply pdf2doi_singlefile_offline; reflexivity.
  - vm_compute. discriminate.
Defined.

Lemma validate_doi_accepted_witness :
  vtruthy (validate default_config env_ok (s2l "10.1103/PhysRev.47.777") WDoi) = true /\
  standardise_doi (s2l "10.1103/PhysRev.47.777") <> None.
Proof.
  assert (H : vtruthy (validate default_config env_ok (s2l "10.1103/PhysRev.47.777") WDoi) = true)
    by (vm_compute; reflexivity).
  split; [exact H|].
  destruct (validate_doi_accepted _ _ _ H) as (doi & Hd & _). rewrite Hd. discriminate.
Defined.

Lemma validate_doi_web_first_answer_witness :
  validate_doi_web env_retry (s2l "10.1103/physrev.47.777") = (WText (s2l "@article{x}"), 3).
Proof.
  rewrite (validate_doi_web_first_answer env_retry (s2l "10.1103/physrev.47.777") 2).
  - reflexivity.
  - lia.
  - intros n Hn. exists 503, []. split.
    + cbn [doi_server env_retry]. destruct n as [|[|n]]; [reflexivity|reflexivity|lia].
    + reflexivity.
  - right. exists 200, (s2l "@article{x}"). split; reflexivity.
Defined.

Lemma validate_arxiv_accepted_witness :
  vtruthy (validate default_config env_ok (s2l "2407.03393") WArxiv) = true /\
  arxiv_shape (s2l "2407.03393").
Proof.
  assert (H : vtruthy (validate default_config env_ok (s2l "2407.03393") WArxiv) = true)
    by (vm_compute; reflexivity).
  split; [exact H|exact (proj1 (validate_arxiv_accepted _ _ _ H))].
Defined.

Lemma standardise_doi_lowercase_witness :
  standardise_doi (s2l "10.1103/PhysRev.47.777") = Some (s2l "10.1103/physrev.47.777") /\
  py_lower (s2l "10.1103/physrev.47.777") = s2l "10.1103/physrev.47.777".
Proof.
  assert (H : standardise_doi (s2l "10.1103/PhysRev.47.777") = Some (s2l "10.1103/physrev.47.777"))
    by (vm_compute; reflexivity).
  split; [exact H|exact (proj1 (standardise_doi_lowercase _ _ H))].
Defined.

Lemma pdf_info_search_keys_witness :
  exists r checked,
    pdf_info_search (validate cfg_nwv env0) doc_title_first keysToCheckFirst_main = (r, checked) /\
    NoDup checked.
Proof.
  destruct (pdf_info_search (validate cfg_nwv env0) doc_title_first keysToCheckFirst_main)
    as [r checked] eqn:E.
  exists r, checked. split; [reflexivity|exact (proj1 (pdf_info_search_keys _ _ _ _ _ E))].
Defined.


Lemma search_loop_stops_witness :
  search_loop env0 (validate cfg_nwv env0)
    ([] ++ Some (s2l "https://example.org") :: [Some (s2l "https://arxiv.org/abs/2407.03393")]) =
  search_loop env0 (validate cfg_nwv env0) ([] ++ Some (s2l "https://example.org") :: []).
Proof.
  apply search_loop_stops. right. exists (s2l "https://example.org"). split; reflexivity.
Defined.

Lemma first_N_queries_clean_witness :
  find_identifier_by_googling_first_N_characters_in_pdf cfg_nwv env0 (validate cfg_nwv env0)
    doc_foo (FObj (s2l "/tmp/x.pdf")) 6 1000 =
  find_identifier_by_googling_first_N_characters_in_pdf cfg_nwv env_long (validate cfg_nwv env0)
    doc_foo (FObj (s2l "/tmp/x.pdf")) 6 1000.
Proof.
  apply first_N_queries_clean.
  - intros q [Hq _]. cbn [google_search env0 env_long] in *.
    destruct (1000 <? length q) eqn:E; [apply Nat.ltb_lt in E; lia|reflexivity].
  - reflexivity.
Defined.

Lemma config_set_get_witness :
  exists st', config_set (Settings (default_params (s2l "/")) INFO) (s2l "verbose") (CBool false) = Ok st' /\
    config_get (sparams st') (s2l "verbose") = Ok (CBool false) /\ loglevel st' = CRITICAL.
Proof.
  destruct (config_set (Settings (default_params (s2l "/")) INFO) (s2l "verbose") (CBool false))
    as [st'|m] eqn:E; [|vm_compute in E; discriminate].
  exists st'. split; [reflexivity|].
  destruct (config_set_get _ _ _ _ E) as (H1 & _ & _ & H4). split; [exact H1|].
  rewrite H4. reflexivity.
Defined.


Lemma add_identifier_to_files_ok_witness :
  exists fs', add_identifier_to_files (s2l "/") (s2l "/papers") (s2l "10.1103/physrev.47.777") fs_papers
                = (ARNone, fs') /\
    fs_doc fs' (s2l "/papers/b.PDF") = Some (doc_written (s2l "10.1103/physrev.47.777") doc_title_first) /\
    fs_doc fs' (s2l "/papers/notes.txt") = Some doc_title_first.
Proof.
  assert (Hf : fst (add_identifier_to_files (s2l "/") (s2l "/papers") (s2l "10.1103/physrev.47.777")
                      fs_papers) = ARNone) by (vm_compute; reflexivity).
  destruct (add_identifier_to_files (s2l "/") (s2l "/papers") (s2l "10.1103/physrev.47.777") fs_papers)
    as [a fs'] eqn:E. cbn [fst] in Hf. subst a.
  assert (Hn : NoDup (target_files (s2l "/") (s2l "/papers") fs_papers)).
  { vm_compute. repeat constructor; intros H; repeat (destruct H as [H|H]; [discriminate H|]); exact H. }
  destruct (add_identifier_to_files_ok _ _ _ _ _ Hn E) as [Hout Hin].
  exists fs'. split; [reflexivity|]. split.
  - destruct (Hin (s2l "/papers/b.PDF")) as (d0 & H0 & H1 & _).
    + vm_compute. right. left. reflexivity.
    + rewrite H1. cbn in H0. injection H0 as <-. reflexivity.
  - rewrite Hout; [reflexivity|].
    vm_compute. intros H; repeat (destruct H as [H|H]; [discriminate H|]); exact H.
Defined.

Lemma add_identifier_to_files_fail_witness :
  exists fs' msg,
    add_identifier_to_files (s2l "/") (s2l "/papers") (s2l "10.1103/physrev.47.777") fs_papers_locked
      = (ARFalse msg, fs') /\
    exists pre f post, target_files (s2l "/") (s2l "/papers") fs_papers_locked = pre ++ f :: post.
Proof.
  destruct (add_identifier_to_files (s2l "/") (s2l "/papers") (s2l "10.1103/physrev.47.777")
              fs_papers_locked) as [[|msg] fs'] eqn:E.
  - exfalso. assert (Hf : fst (add_identifier_to_files (s2l "/") (s2l "/papers")
                                 (s2l "10.1103/physrev.47.777") fs_papers_locked) = ARNone)
      by (rewrite E; reflexivity).
    vm_compute in Hf. discriminate Hf.
  - exists fs', msg. split; [reflexivity|].
    assert (Hn : NoDup (target_files (s2l "/") (s2l "/papers") fs_papers_locked)).
    { vm_compute. repeat constructor; intros H; repeat (destruct H as [H|H]; [discriminate H|]); exact H. }
    destruct (add_identifier_to_files_fail _ _ _ _ _ _ Hn E) as (pre & f & post & Ht & _).
    exists pre, f, post. exact Ht.
Defined.
